(** * jaxopt/base.py: linear operators and composite linear functions

    A shallow embedding of [LinearOperator] and [CompositeLinearFunction]
    together with the part of the array library ([jax.numpy]) that the two
    classes call.

    Numbers.  Array elements are modelled as real numbers: the arithmetic of
    the embedding is exact, rounding of floating-point operations and the
    promotion between element types are outside the model.  What is proved
    over the reals are identities of sums and products.  Where rounding
    decides a property, the computation is repeated in binary32 arithmetic
    (module [Float32]).

    Arrays.  An array is what it is at run time: a shape and a row-major
    buffer.  Its rank is the length of the shape. *)

From Stdlib Require Import String.
From Stdlib Require Import List Arith ZArith Reals Lia Lra Bool.
From Stdlib Require Import Floats.SpecFloat.
Import ListNotations.

(** ** Exceptions and results *)

Inductive exn : Type :=
| ValueError (msg : string)
| NotImplementedError
| IndexError
| TypeError
| OverflowError.

Inductive result (X : Type) : Type :=
| Ok (x : X)
| Raise (e : exn).

Arguments Ok {X} x.
Arguments Raise {X} e.

Definition bind {X Y : Type} (r : result X) (k : X -> result Y) : result Y :=
  match r with
  | Ok x => k x
  | Raise e => Raise e
  end.

Notation "x <- r ;; k" := (bind r (fun x => k))
  (at level 61, r at next level, right associativity).

(** ** Arrays *)

Record ndarray : Type := NDArray { shape : list nat; data : list R }.

Definition ndim (a : ndarray) : nat := length (shape a).

(** Number of elements of an array of shape [s]. *)
Definition numel (s : list nat) : nat := fold_right Nat.mul 1 s.

(** The buffer of a run-time array has as many elements as its shape says. *)
Definition well_formed (a : ndarray) : Prop :=
  length (data a) = numel (shape a).

Definition is_vector (n : nat) (a : ndarray) : Prop :=
  shape a = [n] /\ length (data a) = n.

Definition is_matrix (m n : nat) (a : ndarray) : Prop :=
  shape a = [m; n] /\ length (data a) = m * n.

Definition scalar (v : R) : ndarray := NDArray [] [v].
Definition vector (l : list R) : ndarray := NDArray [length l] l.
Definition zeros (s : list nat) : ndarray := NDArray s (repeat 0%R (numel s)).

(** ** List helpers for row-major buffers *)

(** [chunks k n l]: the first [k] consecutive blocks of [n] elements of [l]. *)
Fixpoint chunks (k n : nat) (l : list R) : list (list R) :=
  match k with
  | 0 => []
  | S k' => firstn n l :: chunks k' n (skipn n l)
  end.

Fixpoint map2 (f : R -> R -> R) (u v : list R) : list R :=
  match u, v with
  | a :: u', b :: v' => f a b :: map2 f u' v'
  | _, _ => []
  end.

(** Sum of the products of corresponding entries. *)
Fixpoint inner (u v : list R) : R :=
  match u, v with
  | a :: u', b :: v' => (a * b + inner u' v')%R
  | _, _ => 0%R
  end.

Definition column (j : nat) (rows : list (list R)) : list R :=
  map (fun r => nth j r 0%R) rows.

Definition columns (k : nat) (rows : list (list R)) : list (list R) :=
  map (fun j => column j rows) (seq 0 k).

(** Sum of the squares of the entries. *)
Definition sum_sq (l : list R) : R :=
  fold_right Rplus 0%R (map (fun v => (v ^ 2)%R) l).

(** ** The array library, as far as base.py calls it *)

Module jnp.

(** [jnp.array(a)]: a copy of the array; arrays are values here. *)
Definition array (a : ndarray) : ndarray := a.

(** Shape of the result of an elementwise operation; both shapes are given
    trailing axis first.  Axes are equal, or one of them has size one. *)
Fixpoint broadcast_shapes (s1 s2 : list nat) : option (list nat) :=
  match s1, s2 with
  | [], s => Some s
  | s, [] => Some s
  | a :: s1', b :: s2' =>
      match broadcast_shapes s1' s2' with
      | None => None
      | Some s =>
          if a =? b then Some (a :: s)
          else if a =? 1 then Some (b :: s)
          else if b =? 1 then Some (a :: s)
          else None
      end
  end.

(** A shape extended on the left with axes of size one up to rank [r]. *)
Definition pad (r : nat) (s : list nat) : list nat :=
  repeat 1 (r - length s) ++ s.

(** Buffer of the elementwise combination of two buffers whose shapes have
    the same rank and are compatible: an axis of size one is repeated. *)
Fixpoint bcast (f : R -> R -> R) (s1 s2 : list nat) (d1 d2 : list R)
  : list R :=
  match s1, s2 with
  | a :: s1', b :: s2' =>
      let c1 := chunks a (numel s1') d1 in
      let c2 := chunks b (numel s2') d2 in
      if a =? b then
        concat (map (fun p => bcast f s1' s2' (fst p) (snd p)) (combine c1 c2))
      else if a =? 1 then
        concat (map (fun y => bcast f s1' s2' d1 y) c2)
      else
        concat (map (fun x => bcast f s1' s2' x d2) c1)
  | _, _ => [f (hd 0%R d1) (hd 0%R d2)]
  end.

Definition elementwise (f : R -> R -> R) (a b : ndarray) : result ndarray :=
  match broadcast_shapes (rev (shape a)) (rev (shape b)) with
  | None => Raise TypeError
  | Some s =>
      let r := length s in
      Ok (NDArray (rev s)
            (bcast f (pad r (shape a)) (pad r (shape b)) (data a) (data b)))
  end.

(** [a + b] and [a * b]. *)
Definition add : ndarray -> ndarray -> result ndarray := elementwise Rplus.
Definition multiply : ndarray -> ndarray -> result ndarray := elementwise Rmult.

(** [a ** 2]. *)
Definition square (a : ndarray) : ndarray :=
  NDArray (shape a) (map (fun v => (v ^ 2)%R) (data a)).

(** [jnp.sqrt(a)]; only applied to sums of squares in base.py.  Over the
    reals the square root is exact; the theorems use it as a function and,
    for a zero column, that the square root of 0 is 0. *)
Definition sqrt (a : ndarray) : ndarray :=
  NDArray (shape a) (map R_sqrt.sqrt (data a)).

(** [jnp.sum(a, axis=0)]. *)
Definition sum_axis0 (a : ndarray) : result ndarray :=
  match shape a with
  | [] => Raise (ValueError "axis 0 is out of bounds for array of dimension 0")
  | k :: s =>
      Ok (NDArray s
            (fold_right (map2 Rplus) (repeat 0%R (numel s))
               (chunks k (numel s) (data a))))
  end.

(** [jnp.outer(a, b)]: both arguments are flattened. *)
Definition outer (a b : ndarray) : ndarray :=
  NDArray [length (data a); length (data b)]
    (flat_map (fun u => map (Rmult u) (data b)) (data a)).

(** [jnp.vdot(a, b)]: both arguments are flattened. *)
Definition vdot (a b : ndarray) : result ndarray :=
  if length (data a) =? length (data b)
  then Ok (scalar (inner (data a) (data b)))
  else Raise TypeError.

(** [a.T]: the axes are reversed. *)
Fixpoint transpose_data (s : list nat) (d : list R) : list R :=
  match s with
  | [] => d
  | k :: s' =>
      concat (columns (numel s')
                (map (transpose_data s') (chunks k (numel s') d)))
  end.

Definition T (a : ndarray) : ndarray :=
  NDArray (rev (shape a)) (transpose_data (shape a) (data a)).

(** [jnp.dot(a, b)]: a product by a scalar when one argument has rank 0;
    otherwise the last axis of [a] is contracted with the only axis of [b]
    (rank 1) or with its second-to-last axis (rank 2 and more). *)
Definition dot (a b : ndarray) : result ndarray :=
  match shape a, rev (shape b) with
  | [], _ => multiply a b
  | _, [] => multiply a b
  | _ :: _, [n'] =>
      let n := last (shape a) 0 in
      let lead := removelast (shape a) in
      if n =? n'
      then Ok (NDArray lead
                 (map (fun r => inner r (data b))
                    (chunks (numel lead) n (data a))))
      else Raise TypeError
  | _ :: _, k :: n' :: q =>
      let n := last (shape a) 0 in
      let lead := removelast (shape a) in
      if n =? n'
      then Ok (NDArray (lead ++ rev q ++ [k])
                 (flat_map
                    (fun r =>
                       flat_map
                         (fun blk => map (inner r) (columns k (chunks n' k blk)))
                         (chunks (numel q) (n' * k) (data b)))
                    (chunks (numel lead) n (data a))))
      else Raise TypeError
  end.

(** Position read by an integer index on an axis of [size] elements.
    base.py indexes [self.A], which [__init__] made a [jax.numpy] array.  For
    such arrays a negative index counts from the end, and a read beyond the
    axis does not raise: the position is clamped into the axis (the library
    documents this for out-of-bounds reads, [jnp.arange(10)[11]] is [9]). *)
Definition clip_index (idx : Z) (size : nat) : nat :=
  let i := if (idx <? 0)%Z then (idx + Z.of_nat size)%Z else idx in
  Z.to_nat (Z.max 0 (Z.min i (Z.of_nat size - 1))).

(** The library turns an integer index into a 32-bit integer. *)
Definition fits_int32 (idx : Z) : bool :=
  ((-2147483648 <=? idx) && (idx <? 2147483648))%Z.

(** The index names an element of the axis, counted from either end. *)
Definition on_axis (idx : Z) (size : nat) : bool :=
  ((- Z.of_nat size <=? idx) && (idx <? Z.of_nat size))%Z.

(** An index that does not fit 32 bits cannot be converted: the read raises
    [OverflowError].  The model reads every index that lies on the axis; on
    an axis of fewer than 2^31 elements such an index fits 32 bits. *)
Definition readable (idx : Z) (size : nat) : bool :=
  on_axis idx size || fits_int32 idx.

(** [a[idx]]: integer index on the first axis.  [IndexError] when there is no
    axis to index or the axis has size 0, [OverflowError] when the index
    cannot be converted. *)
Definition getitem (a : ndarray) (idx : Z) : result ndarray :=
  match shape a with
  | [] => Raise IndexError
  | k :: s =>
      if negb (readable idx k) then Raise OverflowError
      else if k =? 0 then Raise IndexError
      else Ok (NDArray s
                 (nth (clip_index idx k) (chunks k (numel s) (data a)) []))
  end.

(** [a[:, idx]]: integer index on the second axis. *)
Definition getitem_col (a : ndarray) (idx : Z) : result ndarray :=
  match shape a with
  | k :: c :: s =>
      if negb (readable idx c) then Raise OverflowError
      else if c =? 0 then Raise IndexError
      else Ok (NDArray (k :: s)
                 (concat
                    (map (fun blk =>
                            nth (clip_index idx c) (chunks c (numel s) blk) [])
                       (chunks k (c * numel s) (data a)))))
  | _ => Raise IndexError
  end.

End jnp.

(** ** class LinearOperator *)

Module LinearOperator.

Record t : Type := Build { A : ndarray }.

(** [__init__(self, A)]: [self.A = jnp.array(A)]. *)
Definition __init__ (A0 : ndarray) : t := Build (jnp.array A0).

Definition shape (self : t) : list nat := shape (A self).

(** Computes dot(A, x). *)
Definition matvec (self : t) (x : ndarray) : result ndarray :=
  jnp.dot (A self) x.

(** Computes dot(A, x)[idx]. *)
Definition matvec_element (self : t) (x : ndarray) (idx : Z)
  : result ndarray :=
  row <- jnp.getitem (A self) idx ;;
  jnp.dot row x.

(** Computes dot(A.T, x). *)
Definition rmatvec (self : t) (x : ndarray) : result ndarray :=
  jnp.dot (jnp.T (A self)) x.

(** Computes dot(A.T, x)[idx]. *)
Definition rmatvec_element (self : t) (x : ndarray) (idx : Z)
  : result ndarray :=
  col <- jnp.getitem_col (A self) idx ;;
  jnp.dot col x.

(** Updates dot(A, x) when x[idx] += delta. *)
Definition update_matvec (self : t) (Ax delta : ndarray) (idx : Z)
  : result ndarray :=
  if ndim Ax =? 1 then
    col <- jnp.getitem_col (A self) idx ;;
    d <- jnp.multiply delta col ;;
    jnp.add Ax d
  else if ndim Ax =? 2 then
    col <- jnp.getitem_col (A self) idx ;;
    jnp.add Ax (jnp.outer col delta)
  else
    Raise (ValueError "Ax should be a vector or a matrix.").

(** Updates dot(A.T, x) when x[idx] += delta. *)
Definition update_rmatvec (self : t) (ATx delta : ndarray) (idx : Z)
  : result ndarray :=
  if ndim ATx =? 1 then
    row <- jnp.getitem (A self) idx ;;
    d <- jnp.multiply delta row ;;
    jnp.add ATx d
  else if ndim ATx =? 2 then
    Raise NotImplementedError
  else
    Raise (ValueError "Ax should be a vector or a matrix.").

Definition column_l2_norms (self : t) (squared : bool) : result ndarray :=
  ret <- jnp.sum_axis0 (jnp.square (A self)) ;;
  if negb squared then Ok (jnp.sqrt ret) else Ok ret.

(** The leaves of the operator and its auxiliary data ([None]). *)
Definition tree_flatten (self : t) : list ndarray * unit :=
  ([A self], tt).

(** [del aux_data; return cls( *children)]: any auxiliary data is accepted
    and dropped; the constructor takes exactly one argument. *)
Definition tree_unflatten {Aux : Type} (aux_data : Aux)
    (children : list ndarray) : result t :=
  match children with
  | [A0] => Ok (__init__ A0)
  | _ => Raise TypeError
  end.

End LinearOperator.

(** ** class CompositeLinearFunction

    fun(x, params_fun) = subfun(linop(x), params_fun) + vdot(x, b).
    [subfun] and [lipschitz_fun] are supplied by the caller and may raise. *)

Module CompositeLinearFunction.

Section WithParams.

Variable P : Type.

Record t : Type := Build {
  subfun : ndarray -> P -> result ndarray;
  linop : LinearOperator.t;
  b : option ndarray;
  lipschitz_fun : option (P -> result ndarray)
}.

Definition __init__ (subfun0 : ndarray -> P -> result ndarray)
    (linop0 : LinearOperator.t) (b0 : option ndarray)
    (lipschitz_fun0 : option (P -> result ndarray)) : t :=
  Build subfun0 linop0
    (match b0 with Some v => Some (jnp.array v) | None => b0 end)
    lipschitz_fun0.

Definition __call__ (self : t) (x : ndarray) (params_fun : P)
  : result ndarray :=
  match b self with
  | None =>
      y <- LinearOperator.matvec (linop self) x ;;
      subfun self y params_fun
  | Some b0 =>
      y <- LinearOperator.matvec (linop self) x ;;
      r <- subfun self y params_fun ;;
      d <- jnp.vdot x b0 ;;
      jnp.add r d
  end.

Definition column_lipschitz_constants (self : t) (params_fun : P)
  : result ndarray :=
  ret <- LinearOperator.column_l2_norms (linop self) true ;;
  match lipschitz_fun self with
  | Some f =>
      l <- f params_fun ;;
      jnp.multiply ret l
  | None => Ok ret
  end.

End WithParams.

Arguments Build {P} _ _ _ _.
Arguments subfun {P} _ _ _.
Arguments linop {P} _.
Arguments b {P} _.
Arguments lipschitz_fun {P} _.
Arguments __init__ {P} _ _ _ _.
Arguments __call__ {P} _ _ _.
Arguments column_lipschitz_constants {P} _ _.

End CompositeLinearFunction.

(** ** The column norms in binary32 arithmetic

    [column_l2_norms] once more, with the arithmetic as a parameter: the same
    operations in the same order on a shape and a row-major buffer.
    [x ** 2] is the product [x * x]. *)

Module Numeric.

Section WithArithmetic.

Variables (T : Type) (zero : T) (add mul : T -> T -> T) (sqrt : T -> T).

Record array : Type := Array { shape : list nat; data : list T }.

Fixpoint chunks (k n : nat) (l : list T) : list (list T) :=
  match k with
  | 0 => []
  | S k' => firstn n l :: chunks k' n (skipn n l)
  end.

Fixpoint map2 (f : T -> T -> T) (u v : list T) : list T :=
  match u, v with
  | a :: u', b :: v' => f a b :: map2 f u' v'
  | _, _ => []
  end.

(** [a ** 2]. *)
Definition square (a : array) : array :=
  Array (shape a) (map (fun v => mul v v) (data a)).

(** [jnp.sqrt(a)]. *)
Definition sqrt_array (a : array) : array :=
  Array (shape a) (map sqrt (data a)).

(** [jnp.sum(a, axis=0)]. *)
Definition sum_axis0 (a : array) : result array :=
  match shape a with
  | [] => Raise (ValueError "axis 0 is out of bounds for array of dimension 0")
  | k :: s =>
      Ok (Array s
            (fold_right (map2 add) (repeat zero (numel s))
               (chunks k (numel s) (data a))))
  end.

Definition column_l2_norms (A : array) (squared : bool) : result array :=
  ret <- sum_axis0 (square A) ;;
  if negb squared then Ok (sqrt_array ret) else Ok ret.

End WithArithmetic.

Arguments Array {T} _ _.
Arguments shape {T} _.
Arguments data {T} _.

End Numeric.

(** IEEE 754 binary32 with rounding to nearest even, the default element type
    of the array library. *)
Module Float32.

Definition t : Type := spec_float.

Definition prec : Z := 24.
Definition emax : Z := 128.

Definition of_Z (z : Z) : t := binary_normalize prec emax z 0 false.
Definition add : t -> t -> t := SFadd prec emax.
Definition mul : t -> t -> t := SFmul prec emax.
Definition sqrt : t -> t := SFsqrt prec emax.
Definition eqb : t -> t -> bool := SFeqb.

Definition column_l2_norms (A : Numeric.array t) (squared : bool)
  : result (Numeric.array t) :=
  Numeric.column_l2_norms t (of_Z 0) add mul sqrt A squared.

Definition square : Numeric.array t -> Numeric.array t :=
  Numeric.square t mul.

End Float32.

(** An array of reals as an array of the parametric development. *)
Definition of_ndarray (a : ndarray) : Numeric.array R :=
  Numeric.Array (shape a) (data a).

(** ** Perturbing one coordinate

    [perturb x idx delta] is the array [x] after [x[idx] += delta], for an
    index inside the buffer of a vector. *)

Fixpoint add_at (l : list R) (i : nat) (delta : R) : list R :=
  match l, i with
  | [], _ => []
  | v :: l', 0 => (v + delta)%R :: l'
  | v :: l', S i' => v :: add_at l' i' delta
  end.

Definition perturb (x : ndarray) (idx : Z) (delta : R) : ndarray :=
  NDArray (shape x) (add_at (data x) (Z.to_nat idx) delta).

(** ** The scenario of the specification, evaluated *)

Definition A_ex : ndarray := NDArray [3; 2] [1; 0; 0; 1; 1; 1]%R.
Definition op_ex : LinearOperator.t := LinearOperator.__init__ A_ex.

(** A batch for the examples: the products of [A_ex] with [2; 3] and [1; 1]
    as the columns of a matrix, and the two vectors. *)
Definition Ax_batch_ex : ndarray := NDArray [3; 2] [2; 1; 3; 1; 5; 2]%R.

Definition xs_ex (j : nat) : ndarray :=
  match j with
  | 0 => vector [2; 3]%R
  | _ => vector [1; 1]%R
  end.

(** A loss for the examples: subfun(y, params) = params * sum(y ** 2). *)
Definition scaled_sum_sq (y : ndarray) (params : R) : result ndarray :=
  Ok (scalar (params * sum_sq (data y))).

(** A batch of inputs for the examples: the columns are [2; 3] and [1; 1]. *)
Definition X_batch_ex : ndarray := NDArray [2; 2] [2; 1; 3; 1]%R.

(** A curvature bound for the examples: lipschitz_fun(params) = params. *)
Definition const_lipschitz (params : R) : result ndarray :=
  Ok (scalar params).

(** A loss that always fails, for the examples. *)
Definition failing_subfun (y : ndarray) (params : R) : result ndarray :=
  Raise (ValueError "bad params").

(** [A_ex] with binary32 elements, and a matrix without rows. *)
Definition A_ex_f32 : Numeric.array Float32.t :=
  Numeric.Array [3; 2] (map Float32.of_Z [1; 0; 0; 1; 1; 1]%Z).

Definition A_empty : ndarray := NDArray [0; 2] [].

(** A matrix whose second column is zero. *)
Definition A_zero_column : ndarray := NDArray [2; 2] [1; 0; 3; 0]%R.

Ltac eval_array :=
  cbv -[Rplus Rmult Rminus Ropp Rinv R_sqrt.sqrt IZR];
  repeat (f_equal; try lra).

Example matvec_ex :
  LinearOperator.matvec op_ex (vector [2; 3]%R) = Ok (vector [2; 3; 5]%R).
Proof. eval_array. Qed.

Example rmatvec_ex :
  LinearOperator.rmatvec op_ex (vector [1; 1; 1]%R) = Ok (vector [2; 2]%R).
Proof. eval_array. Qed.

Example column_l2_norms_ex :
  LinearOperator.column_l2_norms op_ex false
  = Ok (vector [R_sqrt.sqrt 2; R_sqrt.sqrt 2]%R).
Proof. eval_array. Qed.

Example update_matvec_ex :
  LinearOperator.update_matvec op_ex (vector [2; 3; 5]%R) (scalar 2) 1
  = Ok (vector [2; 5; 7]%R).
Proof. eval_array. Qed.

(** ** Blocks of a buffer *)

Lemma length_chunks (k n : nat) (l : list R) : length (chunks k n l) = k.
Proof.
  revert l; induction k as [|k IH]; intros l; simpl; [reflexivity|].
  now rewrite IH.
Qed.

Lemma chunks_lengths (k n : nat) (l : list R) :
  length l = k * n -> Forall (fun c => length c = n) (chunks k n l).
Proof.
  revert l; induction k as [|k IH]; intros l Hl; simpl; constructor.
  - rewrite length_firstn. simpl in Hl. lia.
  - apply IH. rewrite length_skipn. simpl in Hl. lia.
Qed.

Lemma concat_chunks (k n : nat) (l : list R) :
  length l = k * n -> concat (chunks k n l) = l.
Proof.
  revert l; induction k as [|k IH]; intros l Hl; simpl.
  - destruct l; [reflexivity | discriminate].
  - rewrite IH, firstn_skipn; [reflexivity|].
    rewrite length_skipn. simpl in Hl. lia.
Qed.

Lemma chunks_concat (n : nat) (rows : list (list R)) :
  Forall (fun c => length c = n) rows ->
  chunks (length rows) n (concat rows) = rows.
Proof.
  induction 1 as [|r rows Hr _ IH]; simpl; [reflexivity|].
  rewrite firstn_app, skipn_app, Hr, Nat.sub_diag. simpl.
  rewrite firstn_all2, skipn_all2, app_nil_r by lia.
  simpl. now rewrite IH.
Qed.

Lemma chunks_whole (n : nat) (l : list R) :
  length l = n -> chunks 1 n l = [l].
Proof.
  intros Hl. simpl. rewrite firstn_all2 by lia. reflexivity.
Qed.

Lemma chunks_singletons (l : list R) :
  chunks (length l) 1 l = map (fun v => [v]) l.
Proof.
  induction l as [|v l IH]; simpl; [reflexivity|].
  now rewrite IH.
Qed.

Lemma nth_chunks_length (k n i : nat) (l : list R) :
  length l = k * n -> i < k -> length (nth i (chunks k n l) []) = n.
Proof.
  intros Hl Hi.
  pose proof (chunks_lengths k n l Hl) as HF.
  rewrite Forall_forall in HF. apply HF, nth_In.
  now rewrite length_chunks.
Qed.

Lemma concat_map_singleton (X : Type) (g : X -> R) (l : list X) :
  concat (map (fun v => [g v]) l) = map g l.
Proof.
  induction l as [|v l IH]; simpl; [reflexivity|].
  now rewrite IH.
Qed.

(** ** Elementwise operations on the shapes base.py uses *)

Lemma map2_app (f : R -> R -> R) (u u' v v' : list R) :
  length u = length u' ->
  map2 f (u ++ v) (u' ++ v') = map2 f u u' ++ map2 f v v'.
Proof.
  revert u'; induction u as [|a u IH]; intros [|a' u'] H; simpl in *;
    try discriminate; [reflexivity|].
  f_equal. apply IH. lia.
Qed.

Lemma length_map2 (f : R -> R -> R) (u v : list R) :
  length u = length v -> length (map2 f u v) = length u.
Proof.
  revert v; induction u as [|a u IH]; intros [|b v] H; simpl in *;
    try discriminate; [reflexivity|].
  f_equal. apply IH. lia.
Qed.

Lemma concat_chunks_map2 (f : R -> R -> R) (g : list R -> list R -> list R)
    (k n : nat) (d1 d2 : list R) :
  (forall x y, length x = n -> length y = n -> g x y = map2 f x y) ->
  length d1 = k * n -> length d2 = k * n ->
  concat (map (fun p => g (fst p) (snd p))
            (combine (chunks k n d1) (chunks k n d2)))
  = map2 f d1 d2.
Proof.
  intros Hg. revert d1 d2; induction k as [|k IH]; intros d1 d2 H1 H2; simpl.
  - destruct d1; [reflexivity | discriminate].
  - simpl in H1, H2.
    rewrite IH by (rewrite length_skipn; lia).
    rewrite Hg by (rewrite length_firstn; lia).
    rewrite <- map2_app by (rewrite !length_firstn; lia).
    now rewrite !firstn_skipn.
Qed.

Lemma concat_chunks_map (g : list R -> list R) (f : R -> R)
    (k n : nat) (d : list R) :
  (forall x, length x = n -> g x = map f x) ->
  length d = k * n ->
  concat (map g (chunks k n d)) = map f d.
Proof.
  intros Hg Hd.
  rewrite <- (concat_chunks k n d Hd) at 2.
  rewrite concat_map. f_equal.
  apply map_ext_in. intros x Hx. apply Hg.
  pose proof (chunks_lengths k n d Hd) as HF.
  rewrite Forall_forall in HF. now apply HF.
Qed.

Lemma numel_ones (r : nat) : numel (repeat 1 r) = 1.
Proof. induction r as [|r IH]; simpl; [reflexivity | rewrite IH; lia]. Qed.

Lemma length_one (l : list R) : length l = 1 -> l = [hd 0%R l].
Proof. destruct l as [|v [|w l]]; simpl; intros H; try discriminate; reflexivity. Qed.

Lemma bcast_same (f : R -> R -> R) (s : list nat) (d1 d2 : list R) :
  length d1 = numel s -> length d2 = numel s ->
  jnp.bcast f s s d1 d2 = map2 f d1 d2.
Proof.
  revert d1 d2; induction s as [|a s IH]; intros d1 d2 H1 H2; simpl in *.
  - rewrite (length_one d1 H1), (length_one d2 H2). reflexivity.
  - rewrite Nat.eqb_refl.
    apply concat_chunks_map2; auto.
Qed.

Lemma bcast_scalar_l (f : R -> R -> R) (s : list nat) (x : R) (d : list R) :
  length d = numel s ->
  jnp.bcast f (repeat 1 (length s)) s [x] d = map (f x) d.
Proof.
  revert d; induction s as [|a s IH]; intros d Hd.
  - simpl in *. rewrite (length_one d Hd). reflexivity.
  - cbn [length repeat jnp.bcast]. rewrite numel_ones.
    change (numel (a :: s)) with (a * numel s) in Hd.
    destruct (Nat.eqb_spec 1 a) as [<-|Hne].
    + rewrite !chunks_whole by (simpl; lia). simpl.
      rewrite app_nil_r. apply IH. lia.
    + rewrite Nat.eqb_refl.
      apply concat_chunks_map
        with (g := fun y => jnp.bcast f (repeat 1 (length s)) s [x] y); auto.
Qed.

Lemma bcast_scalar_r (f : R -> R -> R) (s : list nat) (y : R) (d : list R) :
  length d = numel s ->
  jnp.bcast f s (repeat 1 (length s)) d [y] = map (fun v => f v y) d.
Proof.
  revert d; induction s as [|a s IH]; intros d Hd.
  - simpl in *. rewrite (length_one d Hd). reflexivity.
  - cbn [length repeat jnp.bcast]. rewrite numel_ones.
    change (numel (a :: s)) with (a * numel s) in Hd.
    destruct (Nat.eqb_spec a 1) as [->|Hne].
    + rewrite !chunks_whole by (simpl; lia). simpl.
      rewrite app_nil_r. apply IH. lia.
    + apply concat_chunks_map
        with (g := fun x => jnp.bcast f s (repeat 1 (length s)) x [y])
             (f := fun v => f v y); auto.
Qed.

Lemma broadcast_shapes_same (s : list nat) : jnp.broadcast_shapes s s = Some s.
Proof.
  induction s as [|a s IH]; simpl; [reflexivity|].
  now rewrite IH, Nat.eqb_refl.
Qed.

Lemma broadcast_shapes_nil_r (s : list nat) : jnp.broadcast_shapes s [] = Some s.
Proof. destruct s; reflexivity. Qed.

Lemma pad_full (s : list nat) : jnp.pad (length s) s = s.
Proof. unfold jnp.pad. now rewrite Nat.sub_diag. Qed.

Lemma pad_nil (r : nat) : jnp.pad r [] = repeat 1 r.
Proof. unfold jnp.pad. simpl. now rewrite Nat.sub_0_r, app_nil_r. Qed.

Lemma elementwise_same (f : R -> R -> R) (a b : ndarray) :
  shape a = shape b -> well_formed a -> well_formed b ->
  jnp.elementwise f a b = Ok (NDArray (shape a) (map2 f (data a) (data b))).
Proof.
  unfold well_formed, jnp.elementwise. intros Hs Ha Hb.
  rewrite <- Hs in *. rewrite broadcast_shapes_same.
  cbv zeta. rewrite length_rev, pad_full, rev_involutive.
  now rewrite bcast_same.
Qed.

Lemma elementwise_scalar_l (f : R -> R -> R) (x : R) (b : ndarray) :
  well_formed b ->
  jnp.elementwise f (scalar x) b = Ok (NDArray (shape b) (map (f x) (data b))).
Proof.
  unfold well_formed, jnp.elementwise. intros Hb. simpl.
  rewrite length_rev, pad_full, pad_nil, rev_involutive.
  now rewrite bcast_scalar_l.
Qed.

Lemma elementwise_scalar_r (f : R -> R -> R) (a : ndarray) (y : R) :
  well_formed a ->
  jnp.elementwise f a (scalar y)
  = Ok (NDArray (shape a) (map (fun v => f v y) (data a))).
Proof.
  unfold well_formed, jnp.elementwise. intros Ha. simpl.
  rewrite broadcast_shapes_nil_r.
  cbv zeta. rewrite length_rev, pad_full, pad_nil, rev_involutive.
  now rewrite bcast_scalar_r.
Qed.

(** ** Products and indexing on matrices and vectors *)

Lemma is_matrix_wf (m n : nat) (a : ndarray) : is_matrix m n a -> well_formed a.
Proof. intros [Hs Hd]. unfold well_formed. rewrite Hs, Hd. simpl. lia. Qed.

Lemma clip_index_in_range (idx : Z) (size : nat) :
  (0 <= idx < Z.of_nat size)%Z -> jnp.clip_index idx size = Z.to_nat idx.
Proof.
  intros H. unfold jnp.clip_index.
  destruct (Z.ltb_spec idx 0); lia.
Qed.

Lemma clip_index_beyond (idx : Z) (size : nat) :
  0 < size -> (Z.of_nat size <= idx)%Z -> jnp.clip_index idx size = size - 1.
Proof.
  intros Hs H. unfold jnp.clip_index.
  destruct (Z.ltb_spec idx 0); lia.
Qed.

Lemma readable_on_axis (idx : Z) (size : nat) :
  (- Z.of_nat size <= idx < Z.of_nat size)%Z -> jnp.readable idx size = true.
Proof.
  intros H. unfold jnp.readable, jnp.on_axis.
  apply orb_true_iff. left. apply andb_true_iff. lia.
Qed.

Lemma readable_int32 (idx : Z) (size : nat) :
  (-2147483648 <= idx < 2147483648)%Z -> jnp.readable idx size = true.
Proof.
  intros H. unfold jnp.readable, jnp.fits_int32.
  apply orb_true_iff. right. apply andb_true_iff. lia.
Qed.

Lemma unreadable_beyond (idx : Z) (size : nat) :
  (Z.of_nat size <= idx)%Z -> (2147483648 <= idx)%Z ->
  jnp.readable idx size = false.
Proof.
  intros H1 H2. unfold jnp.readable, jnp.on_axis, jnp.fits_int32.
  apply orb_false_iff. split; apply andb_false_iff; lia.
Qed.

Lemma nth_singletons (l : list R) (i : nat) :
  i < length l -> nth i (map (fun v => [v]) l) [] = [nth i l 0%R].
Proof.
  intros Hi.
  rewrite nth_indep with (d' := [0%R]) by now rewrite length_map.
  apply (map_nth (fun v : R => [v])).
Qed.

Lemma dot_matrix_vector (m n : nat) (a x : ndarray) :
  is_matrix m n a -> is_vector n x ->
  jnp.dot a x
  = Ok (NDArray [m] (map (fun r => inner r (data x)) (chunks m n (data a)))).
Proof.
  intros [Hs _] [Hx _]. unfold jnp.dot. rewrite Hs, Hx. simpl.
  now rewrite Nat.eqb_refl, Nat.mul_1_r.
Qed.

Lemma dot_vector_vector (n : nat) (u x : ndarray) :
  is_vector n u -> is_vector n x ->
  jnp.dot u x = Ok (scalar (inner (data u) (data x))).
Proof.
  intros [Hs Hd] [Hx _]. unfold jnp.dot. rewrite Hs, Hx. simpl.
  rewrite Nat.eqb_refl, firstn_all2 by lia. reflexivity.
Qed.

Lemma getitem_matrix (m n : nat) (a : ndarray) (idx : Z) :
  is_matrix m n a -> (0 <= idx < Z.of_nat m)%Z ->
  jnp.getitem a idx
  = Ok (NDArray [n] (nth (Z.to_nat idx) (chunks m n (data a)) [])).
Proof.
  intros [Hs _] Hi. unfold jnp.getitem. rewrite Hs.
  rewrite readable_on_axis by lia. cbn [negb].
  destruct (Nat.eqb_spec m 0) as [->|_]; [lia|].
  rewrite clip_index_in_range by assumption. simpl.
  now rewrite Nat.mul_1_r.
Qed.

Lemma getitem_vector (n : nat) (v : ndarray) (idx : Z) :
  is_vector n v -> (0 <= idx < Z.of_nat n)%Z ->
  jnp.getitem v idx = Ok (scalar (nth (Z.to_nat idx) (data v) 0%R)).
Proof.
  intros [Hs Hd] Hi. unfold jnp.getitem. rewrite Hs.
  rewrite readable_on_axis by lia. cbn [negb].
  destruct (Nat.eqb_spec n 0) as [->|_]; [lia|].
  rewrite clip_index_in_range by assumption. simpl.
  rewrite <- Hd, chunks_singletons, nth_singletons by lia. reflexivity.
Qed.

Lemma getitem_col_matrix (m n : nat) (a : ndarray) (idx : Z) :
  is_matrix m n a -> (0 <= idx < Z.of_nat n)%Z ->
  jnp.getitem_col a idx
  = Ok (NDArray [m] (column (Z.to_nat idx) (chunks m n (data a)))).
Proof.
  intros [Hs Hd] Hi. unfold jnp.getitem_col. rewrite Hs.
  rewrite readable_on_axis by lia. cbn [negb].
  destruct (Nat.eqb_spec n 0) as [->|_]; [lia|].
  rewrite clip_index_in_range by assumption. simpl.
  rewrite Nat.mul_1_r. do 2 f_equal.
  unfold column. rewrite <- concat_map_singleton. f_equal.
  apply map_ext_in. intros r Hr.
  pose proof (chunks_lengths m n (data a) Hd) as HF.
  rewrite Forall_forall in HF. specialize (HF r Hr).
  rewrite <- HF at 1. rewrite chunks_singletons.
  apply nth_singletons. lia.
Qed.

Lemma length_column (j : nat) (rows : list (list R)) :
  length (column j rows) = length rows.
Proof. apply length_map. Qed.

Lemma transpose_data_vector (n : nat) (r : list R) :
  length r = n -> jnp.transpose_data [n] r = r.
Proof.
  intros <-. simpl. rewrite chunks_singletons, app_nil_r.
  unfold column. rewrite !map_map. simpl. apply map_id.
Qed.

Lemma T_matrix (m n : nat) (a : ndarray) :
  is_matrix m n a ->
  jnp.T a = NDArray [n; m] (concat (columns n (chunks m n (data a)))).
Proof.
  intros [Hs Hd]. unfold jnp.T. rewrite Hs. simpl.
  rewrite Nat.mul_1_r. do 3 f_equal.
  rewrite <- (map_id (chunks m n (data a))) at 2.
  apply map_ext_in. intros r Hr.
  pose proof (chunks_lengths m n (data a) Hd) as HF.
  rewrite Forall_forall in HF.
  apply (transpose_data_vector n r (HF r Hr)).
Qed.

Lemma columns_lengths (k : nat) (rows : list (list R)) :
  Forall (fun c => length c = length rows) (columns k rows).
Proof.
  unfold columns. rewrite Forall_forall. intros c Hc.
  apply in_map_iff in Hc. destruct Hc as [j [<- _]]. apply length_column.
Qed.

Lemma length_columns (k : nat) (rows : list (list R)) :
  length (columns k rows) = k.
Proof. unfold columns. now rewrite length_map, length_seq. Qed.

Lemma is_matrix_T (m n : nat) (a : ndarray) :
  is_matrix m n a -> is_matrix n m (jnp.T a).
Proof.
  intros H. rewrite (T_matrix m n a H). split; [reflexivity|]. simpl.
  rewrite length_concat.
  pose proof (columns_lengths n (chunks m n (data a))) as HF.
  rewrite length_chunks in HF.
  assert (Hsum : forall cs : list (list R),
             Forall (fun c => length c = m) cs ->
             list_sum (map (@length R) cs) = length cs * m).
  { induction 1 as [|c cs Hc _ IH]; simpl; [reflexivity | lia]. }
  rewrite (Hsum _ HF), length_columns. reflexivity.
Qed.

Lemma dot_T_matrix_vector (m n : nat) (a y : ndarray) :
  is_matrix m n a -> is_vector m y ->
  jnp.dot (jnp.T a) y
  = Ok (NDArray [n]
          (map (fun c => inner c (data y)) (columns n (chunks m n (data a))))).
Proof.
  intros Ha Hy.
  rewrite (dot_matrix_vector n m _ _ (is_matrix_T m n a Ha) Hy). do 3 f_equal.
  rewrite (T_matrix m n a Ha). simpl.
  pose proof (columns_lengths n (chunks m n (data a))) as HF.
  rewrite length_chunks in HF.
  rewrite <- (length_columns n (chunks m n (data a))) at 1.
  now apply chunks_concat.
Qed.

(** ** Inner products *)

Lemma inner_nil_r (u : list R) : inner u [] = 0%R.
Proof. destruct u; reflexivity. Qed.

Lemma inner_comm (u v : list R) : inner u v = inner v u.
Proof.
  revert v; induction u as [|a u IH]; intros [|b v]; simpl; try reflexivity.
  rewrite IH. ring.
Qed.

Lemma length_add_at (l : list R) (i : nat) (delta : R) :
  length (add_at l i delta) = length l.
Proof.
  revert i; induction l as [|v l IH]; intros [|i]; simpl; try reflexivity.
  now rewrite IH.
Qed.

Lemma inner_add_at (r x : list R) (i : nat) (delta : R) :
  i < length x ->
  inner r (add_at x i delta) = (inner r x + delta * nth i r 0)%R.
Proof.
  revert x i; induction r as [|a r IH]; intros x i Hi.
  - simpl. destruct i; ring.
  - destruct x as [|b x]; [simpl in Hi; lia|].
    destruct i as [|i]; simpl.
    + ring.
    + rewrite IH by (simpl in Hi; lia). ring.
Qed.

Lemma update_rows (rows : list (list R)) (x : list R) (i : nat) (delta : R) :
  i < length x ->
  map2 Rplus (map (fun r => inner r x) rows)
       (map (Rmult delta) (column i rows))
  = map (fun r => inner r (add_at x i delta)) rows.
Proof.
  intros Hi. unfold column.
  induction rows as [|r rows IH]; simpl; [reflexivity|].
  rewrite IH. f_equal.
  now rewrite inner_add_at.
Qed.

Lemma inner_map_affine (x : list R) (X : Type) (u g : X -> R) (c : R)
    (l : list X) :
  inner x (map (fun j => (u j * c + g j)%R) l)
  = (c * inner x (map u l) + inner x (map g l))%R.
Proof.
  revert x; induction l as [|j l IH]; intros x; simpl.
  - rewrite inner_nil_r. ring.
  - destruct x as [|a x]; simpl; [ring|]. rewrite IH. ring.
Qed.

Lemma inner_map_zero (x : list R) (X : Type) (l : list X) :
  inner x (map (fun _ => 0%R) l) = 0%R.
Proof.
  revert x; induction l as [|j l IH]; intros x; simpl.
  - apply inner_nil_r.
  - destruct x as [|a x]; simpl; [reflexivity|]. rewrite IH. ring.
Qed.

Lemma map_nth_seq (r : list R) :
  map (fun j => nth j r 0%R) (seq 0 (length r)) = r.
Proof.
  induction r as [|a r IH]; simpl; [reflexivity|].
  f_equal. rewrite <- seq_shift, map_map. exact IH.
Qed.

(** <Mx, y> = <x, M^T y> on the rows of a matrix with [n] columns. *)
Lemma inner_adjoint (n : nat) (rows : list (list R)) (x y : list R) :
  Forall (fun r => length r = n) rows -> length x = n ->
  inner (map (fun r => inner r x) rows) y
  = inner x (map (fun c => inner c y) (columns n rows)).
Proof.
  intros HF Hx. revert y.
  induction HF as [|r rows Hr _ IH]; intros y; unfold columns in *.
  - simpl. rewrite map_map. simpl. now rewrite inner_map_zero.
  - destruct y as [|b y].
    + rewrite inner_nil_r, map_map.
      rewrite (map_ext _ (fun _ => 0%R)) by (intros; apply inner_nil_r).
      now rewrite inner_map_zero.
    + simpl. rewrite IH, !map_map. simpl.
      rewrite (inner_map_affine x nat (fun j => nth j r 0%R)
                 (fun j => inner (column j rows) y) b (seq 0 n)).
      rewrite <- Hr at 2. rewrite map_nth_seq, (inner_comm x r).
      ring.
Qed.

(** ** LinearOperator: incremental update of the forward product *)

Lemma matvec_vector (m n : nat) (op : LinearOperator.t) (x : ndarray) :
  is_matrix m n (LinearOperator.A op) -> is_vector n x ->
  LinearOperator.matvec op x
  = Ok (NDArray [m]
          (map (fun r => inner r (data x))
             (chunks m n (data (LinearOperator.A op))))).
Proof. intros HA Hx. now apply dot_matrix_vector. Qed.

Lemma is_vector_perturb (n : nat) (x : ndarray) (idx : Z) (delta : R) :
  is_vector n x -> is_vector n (perturb x idx delta).
Proof.
  intros [Hs Hd]. split; [exact Hs|]. simpl. now rewrite length_add_at.
Qed.

(** C1. For a matrix [A] of shape (m, n), a vector [x] of length n, a valid
    index [0 <= idx < n] and a scalar [delta]: [matvec(x)] succeeds, and
    [update_matvec(matvec(x), delta, idx)] is [matvec(x')], where [x'] is [x]
    after [x[idx] += delta]. *)
Theorem update_matvec_vector_correct (m n : nat) (op : LinearOperator.t)
    (x : ndarray) (delta : R) (idx : Z) :
  is_matrix m n (LinearOperator.A op) -> is_vector n x ->
  (0 <= idx < Z.of_nat n)%Z ->
  exists Ax Ax',
    LinearOperator.matvec op x = Ok Ax /\
    LinearOperator.matvec op (perturb x idx delta) = Ok Ax' /\
    LinearOperator.update_matvec op Ax (scalar delta) idx = Ok Ax'.
Proof.
  intros HA Hx Hi.
  pose proof (is_vector_perturb n x idx delta Hx) as Hx'.
  do 2 eexists. split; [now apply (matvec_vector m n)|].
  split; [now apply (matvec_vector m n)|].
  unfold LinearOperator.update_matvec, ndim. cbn [shape length Nat.eqb].
  rewrite (getitem_col_matrix m n _ idx HA Hi). cbn [bind].
  unfold jnp.multiply, jnp.add.
  rewrite elementwise_scalar_l
    by (unfold well_formed; simpl; rewrite length_column, length_chunks; lia).
  cbn [bind shape data].
  rewrite elementwise_same; cbn [shape data].
  - rewrite update_rows by (destruct Hx as [_ ->]; lia). reflexivity.
  - reflexivity.
  - unfold well_formed. simpl. rewrite length_map, length_chunks. lia.
  - unfold well_formed. simpl.
    rewrite length_map, length_column, length_chunks. lia.
Qed.

Lemma update_matvec_vector_correct_witness :
  exists Ax Ax',
    LinearOperator.matvec op_ex (vector [2; 3]%R) = Ok Ax /\
    LinearOperator.matvec op_ex (perturb (vector [2; 3]%R) 1 2) = Ok Ax' /\
    LinearOperator.update_matvec op_ex Ax (scalar 2) 1 = Ok Ax'.
Proof.
  apply (update_matvec_vector_correct 3 2 op_ex (vector [2; 3]%R) 2 1).
  - split; reflexivity.
  - split; reflexivity.
  - simpl; lia.
Defined.

(** ** LinearOperator: one entry of the forward product *)

Lemma is_vector_row (m n : nat) (a : ndarray) (i : nat) :
  is_matrix m n a -> i < m ->
  is_vector n (NDArray [n] (nth i (chunks m n (data a)) [])).
Proof.
  intros [_ Hd] Hi. split; [reflexivity|]. simpl.
  now apply nth_chunks_length.
Qed.

Lemma matvec_element_row (m n : nat) (op : LinearOperator.t) (x : ndarray)
    (idx : Z) :
  is_matrix m n (LinearOperator.A op) -> is_vector n x ->
  (0 <= idx < Z.of_nat m)%Z ->
  LinearOperator.matvec_element op x idx
  = Ok (scalar (inner (nth (Z.to_nat idx)
                         (chunks m n (data (LinearOperator.A op))) [])
                  (data x))).
Proof.
  intros HA Hx Hi. unfold LinearOperator.matvec_element.
  rewrite (getitem_matrix m n _ idx HA Hi). cbn [bind].
  rewrite (dot_vector_vector n _ x); [reflexivity | | exact Hx].
  apply is_vector_row; [exact HA | lia].
Qed.

(** C3. For a matrix [A] of shape (m, n), a vector [x] of length n and a valid
    row index [0 <= i < m]: [matvec(x)] succeeds, indexing it at [i] succeeds,
    and [matvec_element(x, i)] returns that entry. *)
Theorem matvec_element_correct (m n : nat) (op : LinearOperator.t)
    (x : ndarray) (i : Z) :
  is_matrix m n (LinearOperator.A op) -> is_vector n x ->
  (0 <= i < Z.of_nat m)%Z ->
  exists Ax e,
    LinearOperator.matvec op x = Ok Ax /\
    jnp.getitem Ax i = Ok e /\
    LinearOperator.matvec_element op x i = Ok e.
Proof.
  intros HA Hx Hi.
  do 2 eexists. split; [now apply (matvec_vector m n)|].
  split.
  - apply (getitem_vector m); [|exact Hi].
    split; [reflexivity|]. simpl. now rewrite length_map, length_chunks.
  - rewrite (matvec_element_row m n op x i HA Hx Hi). cbn [data].
    do 2 f_equal.
    symmetry.
    exact (map_nth (fun r => inner r (data x))
             (chunks m n (data (LinearOperator.A op))) [] (Z.to_nat i)).
Qed.

Lemma matvec_element_correct_witness :
  exists Ax e,
    LinearOperator.matvec op_ex (vector [2; 3]%R) = Ok Ax /\
    jnp.getitem Ax 2 = Ok e /\
    LinearOperator.matvec_element op_ex (vector [2; 3]%R) 2 = Ok e.
Proof.
  apply (matvec_element_correct 3 2 op_ex (vector [2; 3]%R) 2).
  - split; reflexivity.
  - split; reflexivity.
  - simpl; lia.
Defined.

(** ** LinearOperator: a row index beyond the last row *)

(** An error of the indexing reaches the caller as it is. *)
Lemma matvec_element_propagates (op : LinearOperator.t) (x : ndarray)
    (idx : Z) (e : exn) :
  jnp.getitem (LinearOperator.A op) idx = Raise e ->
  LinearOperator.matvec_element op x idx = Raise e.
Proof.
  intros H. unfold LinearOperator.matvec_element. now rewrite H.
Qed.

(** C4, as the code behaves.  For a matrix [A] of shape (m, n), a vector [x]
    of length n and an index [idx >= m].  When [idx] fits 32 bits
    ([idx < 2^31]): if [A] has no rows the call fails with [IndexError];
    otherwise it does not fail, the index is clamped to the last row and the
    call returns what [matvec_element(x, m - 1)] returns.  When [idx] does not
    fit 32 bits and [A] has rows, the call fails with [OverflowError]. *)
Theorem matvec_element_beyond_rows (m n : nat) (op : LinearOperator.t)
    (x : ndarray) (idx : Z) :
  is_matrix m n (LinearOperator.A op) -> is_vector n x ->
  (Z.of_nat m <= idx)%Z ->
  ((idx < 2147483648)%Z -> m = 0 ->
   LinearOperator.matvec_element op x idx = Raise IndexError) /\
  ((idx < 2147483648)%Z -> 0 < m ->
   exists e,
     LinearOperator.matvec_element op x idx = Ok e /\
     LinearOperator.matvec_element op x (Z.of_nat m - 1) = Ok e) /\
  ((2147483648 <= idx)%Z -> 0 < m ->
   LinearOperator.matvec_element op x idx = Raise OverflowError).
Proof.
  intros HA Hx Hi. split; [|split].
  - intros Hfit ->. unfold LinearOperator.matvec_element, jnp.getitem.
    destruct HA as [-> _]. rewrite readable_int32 by lia. reflexivity.
  - intros Hfit Hm. eexists. split.
    + unfold LinearOperator.matvec_element, jnp.getitem.
      pose proof HA as [Hs _]. rewrite Hs.
      rewrite readable_int32 by lia. cbn [negb].
      destruct (Nat.eqb_spec m 0) as [->|_]; [lia|].
      rewrite clip_index_beyond by assumption. cbn [bind numel fold_right].
      rewrite Nat.mul_1_r.
      rewrite (dot_vector_vector n _ x); [reflexivity | | exact Hx].
      apply is_vector_row; [exact HA | lia].
    + rewrite (matvec_element_row m n op x _ HA Hx) by lia.
      cbn [data]. do 4 f_equal. lia.
  - intros Hbig Hm. unfold LinearOperator.matvec_element, jnp.getitem.
    destruct HA as [-> _]. now rewrite unreadable_beyond.
Qed.

(** The three cases at concrete inputs: three rows and index 7, no rows and
    index 0, three rows and index 2^31. *)
Lemma matvec_element_beyond_rows_witness :
  (exists e,
     LinearOperator.matvec_element op_ex (vector [2; 3]%R) 7 = Ok e /\
     LinearOperator.matvec_element op_ex (vector [2; 3]%R) (Z.of_nat 3 - 1)
     = Ok e) /\
  LinearOperator.matvec_element (LinearOperator.__init__ A_empty)
    (vector [2; 3]%R) 0 = Raise IndexError /\
  LinearOperator.matvec_element op_ex (vector [2; 3]%R) 2147483648
  = Raise OverflowError.
Proof.
  split; [|split].
  - apply (matvec_element_beyond_rows 3 2 op_ex (vector [2; 3]%R) 7).
    + split; reflexivity.
    + split; reflexivity.
    + simpl; lia.
    + lia.
    + lia.
  - apply (matvec_element_beyond_rows 0 2 (LinearOperator.__init__ A_empty)
             (vector [2; 3]%R) 0).
    + split; reflexivity.
    + split; reflexivity.
    + simpl; lia.
    + lia.
    + reflexivity.
  - apply (matvec_element_beyond_rows 3 2 op_ex (vector [2; 3]%R) 2147483648).
    + split; reflexivity.
    + split; reflexivity.
    + simpl; lia.
    + lia.
    + lia.
Defined.

(** C4 as stated fails: with three rows, index 3 is beyond the last row, and
    the call returns the product of the last row with [x]. *)
Lemma matvec_element_index_error_counterexample :
  is_matrix 3 2 (LinearOperator.A op_ex) /\
  is_vector 2 (vector [2; 3]%R) /\
  (Z.of_nat 3 <= 3)%Z /\
  LinearOperator.matvec_element op_ex (vector [2; 3]%R) 3 = Ok (scalar 5) /\
  forall e,
    LinearOperator.matvec_element op_ex (vector [2; 3]%R) 3 <> Raise e.
Proof.
  assert (H : LinearOperator.matvec_element op_ex (vector [2; 3]%R) 3
              = Ok (scalar 5)) by eval_array.
  repeat split; try reflexivity; try (simpl; lia); try exact H.
  intros e. rewrite H. discriminate.
Qed.

(** ** LinearOperator: rank dispatch of the adjoint update *)

(** C5. [update_rmatvec] on an array of rank 2 fails with
    [NotImplementedError], whatever [delta] and [idx] are; on an array whose
    rank is neither 1 nor 2 it fails with [ValueError]. *)
Theorem update_rmatvec_rank_errors (op : LinearOperator.t)
    (ATx delta : ndarray) (idx : Z) :
  (ndim ATx = 2 ->
   LinearOperator.update_rmatvec op ATx delta idx = Raise NotImplementedError) /\
  (ndim ATx <> 1 -> ndim ATx <> 2 ->
   LinearOperator.update_rmatvec op ATx delta idx
   = Raise (ValueError "Ax should be a vector or a matrix.")).
Proof.
  unfold LinearOperator.update_rmatvec. split.
  - intros ->. reflexivity.
  - intros H1 H2.
    destruct (Nat.eqb_spec (ndim ATx) 1) as [E|_]; [contradiction|].
    destruct (Nat.eqb_spec (ndim ATx) 2) as [E|_]; [contradiction|].
    reflexivity.
Qed.

Lemma update_rmatvec_rank_errors_witness :
  LinearOperator.update_rmatvec op_ex A_ex (scalar 1) 0
  = Raise NotImplementedError /\
  LinearOperator.update_rmatvec op_ex (scalar 4) (scalar 1) 0
  = Raise (ValueError "Ax should be a vector or a matrix.").
Proof.
  split.
  - apply (update_rmatvec_rank_errors op_ex A_ex (scalar 1) 0). reflexivity.
  - apply (update_rmatvec_rank_errors op_ex (scalar 4) (scalar 1) 0);
      unfold ndim; simpl; lia.
Defined.

(** ** LinearOperator: flattening and rebuilding *)

(** C9. [tree_flatten] returns the one-leaf list [[A]] and no auxiliary data,
    and [tree_unflatten] applied to that output succeeds and rebuilds an
    operator with the same matrix. *)
Theorem tree_unflatten_flatten (op : LinearOperator.t) :
  LinearOperator.tree_flatten op = ([LinearOperator.A op], tt) /\
  exists op',
    LinearOperator.tree_unflatten (snd (LinearOperator.tree_flatten op))
      (fst (LinearOperator.tree_flatten op)) = Ok op' /\
    LinearOperator.A op' = LinearOperator.A op /\
    op' = op.
Proof.
  split; [reflexivity|].
  exists op. destruct op as [a]. repeat split.
Qed.

(** ** LinearOperator: forward and adjoint products *)

Lemma rmatvec_vector (m n : nat) (op : LinearOperator.t) (y : ndarray) :
  is_matrix m n (LinearOperator.A op) -> is_vector m y ->
  LinearOperator.rmatvec op y
  = Ok (NDArray [n]
          (map (fun c => inner c (data y))
             (columns n (chunks m n (data (LinearOperator.A op)))))).
Proof. intros HA Hy. now apply dot_T_matrix_vector. Qed.

(** C10. For a matrix [A] of shape (m, n), a vector [x] of length n and a
    vector [y] of length m: both products succeed and
    <matvec(x), y> = <x, rmatvec(y)>. *)
Theorem matvec_rmatvec_adjoint (m n : nat) (op : LinearOperator.t)
    (x y : ndarray) :
  is_matrix m n (LinearOperator.A op) -> is_vector n x -> is_vector m y ->
  exists Ax ATy s,
    LinearOperator.matvec op x = Ok Ax /\
    LinearOperator.rmatvec op y = Ok ATy /\
    jnp.vdot Ax y = Ok (scalar s) /\
    jnp.vdot x ATy = Ok (scalar s).
Proof.
  intros HA Hx Hy.
  do 3 eexists. split; [now apply (matvec_vector m n)|].
  split; [now apply (rmatvec_vector m n)|].
  destruct HA as [_ HdA]. destruct Hx as [_ Hdx]. destruct Hy as [_ Hdy].
  unfold jnp.vdot. cbn [data].
  rewrite !length_map, length_chunks, length_columns, Hdx, Hdy, !Nat.eqb_refl.
  split; [reflexivity|].
  do 2 f_equal. symmetry. apply inner_adjoint; [|exact Hdx].
  now apply chunks_lengths.
Qed.

Lemma matvec_rmatvec_adjoint_witness :
  exists Ax ATy s,
    LinearOperator.matvec op_ex (vector [2; 3]%R) = Ok Ax /\
    LinearOperator.rmatvec op_ex (vector [1; 1; 1]%R) = Ok ATy /\
    jnp.vdot Ax (vector [1; 1; 1]%R) = Ok (scalar s) /\
    jnp.vdot (vector [2; 3]%R) ATy = Ok (scalar s).
Proof.
  apply (matvec_rmatvec_adjoint 3 2 op_ex (vector [2; 3]%R)
           (vector [1; 1; 1]%R)).
  - split; reflexivity.
  - split; reflexivity.
  - split; reflexivity.
Defined.

(** ** LinearOperator: column norms *)

Lemma chunks_map (f : R -> R) (k n : nat) (l : list R) :
  chunks k n (map f l) = map (map f) (chunks k n l).
Proof.
  revert l; induction k as [|k IH]; intros l; simpl; [reflexivity|].
  now rewrite firstn_map, skipn_map, IH.
Qed.

Lemma nth_map_in_range (f : R -> R) (l : list R) (j : nat) :
  j < length l -> nth j (map f l) 0%R = f (nth j l 0%R).
Proof.
  intros Hj.
  rewrite nth_indep with (d' := f 0%R) by now rewrite length_map.
  apply map_nth.
Qed.

Lemma nth_map2 (f : R -> R -> R) (u v : list R) (j : nat) :
  j < length u -> length u = length v ->
  nth j (map2 f u v) 0%R = f (nth j u 0%R) (nth j v 0%R).
Proof.
  revert v j; induction u as [|a u IH]; intros [|b v] j Hj Hl; simpl in *;
    try lia.
  destruct j as [|j]; [reflexivity|]. apply IH; lia.
Qed.

Lemma length_column_sums (n : nat) (rows : list (list R)) :
  Forall (fun r => length r = n) rows ->
  length (fold_right (map2 Rplus) (repeat 0%R n) rows) = n.
Proof.
  induction 1 as [|r rows Hr _ IH]; simpl.
  - apply repeat_length.
  - rewrite length_map2; lia.
Qed.

Lemma nth_column_sums (n : nat) (rows : list (list R)) (j : nat) :
  Forall (fun r => length r = n) rows -> j < n ->
  nth j (fold_right (map2 Rplus) (repeat 0%R n) rows) 0%R
  = fold_right Rplus 0%R (column j rows).
Proof.
  intros HF Hj. induction HF as [|r rows Hr HF IH]; simpl.
  - apply nth_repeat.
  - rewrite nth_map2, IH; [reflexivity | lia |].
    rewrite (length_column_sums n rows HF). exact Hr.
Qed.

Lemma column_map (f : R -> R) (n j : nat) (rows : list (list R)) :
  Forall (fun r => length r = n) rows -> j < n ->
  column j (map (map f) rows) = map f (column j rows).
Proof.
  intros HF Hj. unfold column. rewrite !map_map.
  apply map_ext_in. intros r Hr.
  rewrite Forall_forall in HF.
  apply nth_map_in_range. rewrite (HF r Hr). exact Hj.
Qed.

(** The squared norms: one entry per column, the sum of its squares. *)
Lemma column_l2_norms_squared (m n : nat) (op : LinearOperator.t) :
  is_matrix m n (LinearOperator.A op) ->
  exists v,
    LinearOperator.column_l2_norms op true = Ok v /\
    is_vector n v /\
    forall j, j < n ->
      nth j (data v) 0%R
      = sum_sq (column j (chunks m n (data (LinearOperator.A op)))).
Proof.
  intros [Hs Hd].
  unfold LinearOperator.column_l2_norms, jnp.sum_axis0, jnp.square.
  cbn [shape data]. rewrite Hs. cbn [bind negb numel fold_right].
  rewrite Nat.mul_1_r, chunks_map.
  pose proof (chunks_lengths m n _ Hd) as HF.
  assert (HF' : Forall (fun r => length r = n)
                  (map (map (fun v => (v ^ 2)%R))
                     (chunks m n (data (LinearOperator.A op))))).
  { rewrite Forall_forall in *. intros r Hr.
    apply in_map_iff in Hr. destruct Hr as [r0 [<- Hr0]].
    rewrite length_map. now apply HF. }
  eexists. split; [reflexivity|]. cbn [data]. repeat split.
  - now apply length_column_sums.
  - intros j Hj.
    rewrite (nth_column_sums n _ j HF' Hj), (column_map _ n j _ HF Hj).
    reflexivity.
Qed.

(** C8, as the code behaves.  [column_l2_norms(squared=False)] is the
    elementwise square root of [column_l2_norms(squared=True)], for every
    operator.  For a matrix [A] of shape (m, n) (any m and n, zero included)
    both calls succeed and return vectors of length n, and the squared norms
    are the column sums of squares.  Squaring the unsquared norms is not
    claimed to give back the squared norms: that holds up to rounding only. *)
Theorem column_l2_norms_sqrt_of_squared (op : LinearOperator.t) :
  LinearOperator.column_l2_norms op false
  = (s <- LinearOperator.column_l2_norms op true ;; Ok (jnp.sqrt s)) /\
  forall m n, is_matrix m n (LinearOperator.A op) ->
    exists s r,
      LinearOperator.column_l2_norms op true = Ok s /\
      LinearOperator.column_l2_norms op false = Ok r /\
      is_vector n s /\ is_vector n r /\
      r = jnp.sqrt s /\
      forall j, j < n ->
        nth j (data s) 0%R
        = sum_sq (column j (chunks m n (data (LinearOperator.A op)))).
Proof.
  split.
  - unfold LinearOperator.column_l2_norms.
    now destruct (jnp.sum_axis0 (jnp.square (LinearOperator.A op))).
  - intros m n HA.
    destruct (column_l2_norms_squared m n op HA) as [s [Hs [Hv Hsum]]].
    exists s, (jnp.sqrt s).
    unfold LinearOperator.column_l2_norms in *.
    destruct (jnp.sum_axis0 (jnp.square (LinearOperator.A op))) as [ret|e];
      [|discriminate].
    cbn [bind negb] in *. injection Hs as ->.
    repeat split; try reflexivity; try apply Hv.
    + cbn [jnp.sqrt data]. rewrite length_map. apply Hv.
    + exact Hsum.
Qed.

Lemma column_l2_norms_sqrt_of_squared_witness :
  exists s r,
    LinearOperator.column_l2_norms op_ex true = Ok s /\
    LinearOperator.column_l2_norms op_ex false = Ok r /\
    is_vector 2 s /\ is_vector 2 r /\
    r = jnp.sqrt s /\
    forall j, j < 2 ->
      nth j (data s) 0%R
      = sum_sq (column j (chunks 3 2 (data (LinearOperator.A op_ex)))).
Proof.
  apply (proj2 (column_l2_norms_sqrt_of_squared op_ex) 3 2).
  split; reflexivity.
Defined.

(** The parametric [column_l2_norms] at the reals is the one of
    [LinearOperator]. *)
Lemma numeric_chunks_reals (k n : nat) (l : list R) :
  Numeric.chunks R k n l = chunks k n l.
Proof. reflexivity. Qed.

Lemma numeric_column_sums_reals (z : list R) (rows : list (list R)) :
  fold_right (Numeric.map2 R Rplus) z rows = fold_right (map2 Rplus) z rows.
Proof. reflexivity. Qed.

Lemma numeric_column_l2_norms_reals (a : ndarray) (squared : bool) :
  Numeric.column_l2_norms R 0%R Rplus Rmult R_sqrt.sqrt (of_ndarray a) squared
  = (r <- LinearOperator.column_l2_norms (LinearOperator.Build a) squared ;;
     Ok (of_ndarray r)).
Proof.
  unfold Numeric.column_l2_norms, LinearOperator.column_l2_norms,
    Numeric.sum_axis0, jnp.sum_axis0, Numeric.square, jnp.square, of_ndarray.
  cbn [Numeric.shape Numeric.data shape data LinearOperator.A].
  destruct (shape a) as [|k sh]; [reflexivity|]. cbn [bind].
  rewrite numeric_chunks_reals, numeric_column_sums_reals.
  rewrite (map_ext (fun v => (v * v)%R) (fun v => (v ^ 2)%R))
    by (intros; ring).
  now destruct squared.
Qed.

(** In every arithmetic the unsquared norms are the square roots of the
    squared ones. *)
Lemma numeric_column_l2_norms_unsquared (T : Type) (zero : T)
    (add mul : T -> T -> T) (sqrt : T -> T) (A : Numeric.array T) :
  Numeric.column_l2_norms T zero add mul sqrt A false
  = (s <- Numeric.column_l2_norms T zero add mul sqrt A true ;;
     Ok (Numeric.sqrt_array T sqrt s)).
Proof.
  unfold Numeric.column_l2_norms.
  now destruct (Numeric.sum_axis0 T zero add (Numeric.square T mul A)).
Qed.

(** C8 as stated fails in binary32: for the matrix of the scenario the
    squared norms are 2 and 2, the unsquared norms are the binary32 square
    root of 2, and their squares are 2 - 2^-23. *)
Lemma column_l2_norms_square_counterexample :
  exists s r,
    Float32.column_l2_norms A_ex_f32 true = Ok s /\
    Float32.column_l2_norms A_ex_f32 false = Ok r /\
    s = Numeric.Array [2] [Float32.of_Z 2; Float32.of_Z 2] /\
    Float32.square r
    = Numeric.Array [2] [S754_finite false 16777215 (-23);
                         S754_finite false 16777215 (-23)] /\
    s <> Float32.square r /\
    Float32.eqb (nth 0 (Numeric.data s) S754_nan)
      (nth 0 (Numeric.data (Float32.square r)) S754_nan) = false.
Proof.
  exists (Numeric.Array [2] [Float32.of_Z 2; Float32.of_Z 2]).
  exists (Numeric.Array [2] [Float32.sqrt (Float32.of_Z 2);
                             Float32.sqrt (Float32.of_Z 2)]).
  split; [vm_compute; reflexivity|].
  split; [vm_compute; reflexivity|].
  split; [reflexivity|].
  split; [vm_compute; reflexivity|].
  split; [|vm_compute; reflexivity].
  intros H. vm_compute in H. discriminate H.
Qed.

(** ** CompositeLinearFunction *)

(** C7. When [lipschitz_fun] is absent, [column_lipschitz_constants(params)]
    is [linop.column_l2_norms(squared=True)], for every operator and every
    [params]; for a matrix of shape (m, n) this is a vector of length n whose
    j-th entry is the sum of the squares of column j. *)
Theorem column_lipschitz_constants_default (P : Type)
    (subfun : ndarray -> P -> result ndarray) (linop : LinearOperator.t)
    (b : option ndarray) (params : P) :
  CompositeLinearFunction.column_lipschitz_constants
    (CompositeLinearFunction.__init__ subfun linop b None) params
  = LinearOperator.column_l2_norms linop true /\
  forall m n, is_matrix m n (LinearOperator.A linop) ->
    exists v,
      CompositeLinearFunction.column_lipschitz_constants
        (CompositeLinearFunction.__init__ subfun linop b None) params = Ok v /\
      is_vector n v /\
      forall j, j < n ->
        nth j (data v) 0%R
        = sum_sq (column j (chunks m n (data (LinearOperator.A linop)))).
Proof.
  assert (E : CompositeLinearFunction.column_lipschitz_constants
                (CompositeLinearFunction.__init__ subfun linop b None) params
              = LinearOperator.column_l2_norms linop true).
  { unfold CompositeLinearFunction.column_lipschitz_constants,
      CompositeLinearFunction.__init__.
    cbn [CompositeLinearFunction.linop CompositeLinearFunction.lipschitz_fun].
    now destruct (LinearOperator.column_l2_norms linop true). }
  split; [exact E|]. rewrite E. intros m n HA.
  destruct (column_l2_norms_squared m n linop HA) as [v [Hv [Hvec Hsum]]].
  exists v. auto.
Qed.

Lemma column_lipschitz_constants_default_witness :
  exists v,
    CompositeLinearFunction.column_lipschitz_constants
      (CompositeLinearFunction.__init__ scaled_sum_sq op_ex None None) 1%R
    = Ok v /\
    is_vector 2 v /\
    forall j, j < 2 ->
      nth j (data v) 0%R
      = sum_sq (column j (chunks 3 2 (data (LinearOperator.A op_ex)))).
Proof.
  apply (proj2 (column_lipschitz_constants_default R scaled_sum_sq op_ex None
                  1%R) 3 2).
  split; reflexivity.
Defined.

Lemma inner_zeros (x : list R) (n : nat) : inner x (repeat 0%R n) = 0%R.
Proof.
  revert n; induction x as [|a x IH]; intros [|n]; simpl; try reflexivity.
  rewrite IH. ring.
Qed.

Lemma add_scalar_zero (r : ndarray) :
  well_formed r -> jnp.add r (scalar 0) = Ok r.
Proof.
  intros Hr. unfold jnp.add. rewrite (elementwise_scalar_r Rplus r 0 Hr).
  rewrite (map_ext _ (fun v => v)) by (intros; ring).
  rewrite map_id. now destruct r.
Qed.

(** C6. For a matrix [A] of shape (m, n) and a vector [x] of length n, with a
    [subfun] that returns well-formed arrays: evaluating the function built
    without [b] gives the same result (value or error) as evaluating the one
    built with [b] the zero vector of length n; without [b] the result is
    [subfun(linop.matvec(x), params)], with [b] it is that value plus
    [vdot(x, b)]. *)
Theorem call_without_b_is_call_with_zero_b (P : Type) (m n : nat)
    (subfun : ndarray -> P -> result ndarray) (linop : LinearOperator.t)
    (lipschitz_fun : option (P -> result ndarray)) (x : ndarray) (params : P) :
  is_matrix m n (LinearOperator.A linop) -> is_vector n x ->
  (forall y p r, well_formed y -> subfun y p = Ok r -> well_formed r) ->
  CompositeLinearFunction.__call__
    (CompositeLinearFunction.__init__ subfun linop None lipschitz_fun)
    x params
  = CompositeLinearFunction.__call__
      (CompositeLinearFunction.__init__ subfun linop (Some (zeros [n]))
         lipschitz_fun)
      x params /\
  CompositeLinearFunction.__call__
    (CompositeLinearFunction.__init__ subfun linop None lipschitz_fun)
    x params
  = (y <- LinearOperator.matvec linop x ;; subfun y params) /\
  forall b0,
    CompositeLinearFunction.__call__
      (CompositeLinearFunction.__init__ subfun linop (Some b0) lipschitz_fun)
      x params
    = (y <- LinearOperator.matvec linop x ;;
       r <- subfun y params ;;
       d <- jnp.vdot x b0 ;;
       jnp.add r d).
Proof.
  intros HA Hx Hsub. repeat split.
  unfold CompositeLinearFunction.__call__, CompositeLinearFunction.__init__.
  cbn [CompositeLinearFunction.b CompositeLinearFunction.linop
       CompositeLinearFunction.subfun].
  rewrite (matvec_vector m n linop x HA Hx). cbn [bind].
  match goal with |- subfun ?y params = _ =>
    assert (Hy : well_formed y)
      by (unfold well_formed; simpl; rewrite length_map, length_chunks; lia);
    specialize (Hsub y params); destruct (subfun y params) as [r|e]
  end; [|reflexivity].
  cbn [bind]. unfold jnp.vdot, jnp.array, zeros. cbn [data numel fold_right].
  destruct Hx as [_ Hdx].
  rewrite repeat_length, Hdx, Nat.mul_1_r, Nat.eqb_refl, inner_zeros.
  cbn [bind]. symmetry. apply add_scalar_zero. now apply (Hsub r).
Qed.

Lemma call_without_b_is_call_with_zero_b_witness :
  CompositeLinearFunction.__call__
    (CompositeLinearFunction.__init__ scaled_sum_sq op_ex None None)
    (vector [2; 3]%R) 1%R
  = CompositeLinearFunction.__call__
      (CompositeLinearFunction.__init__ scaled_sum_sq op_ex
         (Some (zeros [2])) None)
      (vector [2; 3]%R) 1%R /\
  CompositeLinearFunction.__call__
    (CompositeLinearFunction.__init__ scaled_sum_sq op_ex None None)
    (vector [2; 3]%R) 1%R
  = (y <- LinearOperator.matvec op_ex (vector [2; 3]%R) ;;
     scaled_sum_sq y 1%R) /\
  forall b0,
    CompositeLinearFunction.__call__
      (CompositeLinearFunction.__init__ scaled_sum_sq op_ex (Some b0) None)
      (vector [2; 3]%R) 1%R
    = (y <- LinearOperator.matvec op_ex (vector [2; 3]%R) ;;
       r <- scaled_sum_sq y 1%R ;;
       d <- jnp.vdot (vector [2; 3]%R) b0 ;;
       jnp.add r d).
Proof.
  apply (call_without_b_is_call_with_zero_b R 3 2 scaled_sum_sq op_ex None
           (vector [2; 3]%R) 1%R).
  - split; reflexivity.
  - split; reflexivity.
  - intros y p r _ H. injection H as <-. reflexivity.
Defined.

(** ** LinearOperator: incremental update of a batch of forward products *)

Lemma firstn_map2 (f : R -> R -> R) (n : nat) (u v : list R) :
  firstn n (map2 f u v) = map2 f (firstn n u) (firstn n v).
Proof.
  revert u v; induction n as [|n IH]; intros [|a u] [|b v]; simpl;
    try reflexivity.
  now rewrite IH.
Qed.

Lemma skipn_map2 (f : R -> R -> R) (n : nat) (u v : list R) :
  skipn n (map2 f u v) = map2 f (skipn n u) (skipn n v).
Proof.
  revert u v; induction n as [|n IH]; intros [|a u] [|b v]; simpl;
    try reflexivity.
  - now destruct (skipn n u).
  - apply IH.
Qed.

Lemma chunks_map2 (f : R -> R -> R) (k n : nat) (d1 d2 : list R) :
  chunks k n (map2 f d1 d2)
  = map (fun p => map2 f (fst p) (snd p))
      (combine (chunks k n d1) (chunks k n d2)).
Proof.
  revert d1 d2; induction k as [|k IH]; intros d1 d2; simpl; [reflexivity|].
  now rewrite firstn_map2, skipn_map2, IH.
Qed.

Lemma column_combine (f : R -> R -> R) (n j : nat) (R1 R2 : list (list R)) :
  Forall (fun r => length r = n) R1 -> Forall (fun r => length r = n) R2 ->
  j < n ->
  column j (map (fun p => map2 f (fst p) (snd p)) (combine R1 R2))
  = map2 f (column j R1) (column j R2).
Proof.
  intros H1. revert R2.
  induction H1 as [|r1 R1 Hr1 _ IH]; intros R2 H2 Hj; [reflexivity|].
  destruct H2 as [|r2 R2 Hr2 H2]; [reflexivity|].
  unfold column in *. simpl. rewrite IH by assumption.
  f_equal. apply nth_map2; lia.
Qed.

Lemma column_scaled (d col : list R) (j : nat) :
  j < length d ->
  column j (map (fun u => map (Rmult u) d) col)
  = map (Rmult (nth j d 0%R)) col.
Proof.
  intros Hj. unfold column. rewrite map_map.
  apply map_ext. intros u.
  rewrite nth_map_in_range by assumption. ring.
Qed.

Lemma length_outer_data (c d : list R) :
  length (flat_map (fun u => map (Rmult u) d) c) = length c * length d.
Proof.
  induction c as [|u c IH]; simpl; [reflexivity|].
  now rewrite length_app, length_map, IH.
Qed.

Lemma chunks_outer_data (c d : list R) :
  chunks (length c) (length d) (flat_map (fun u => map (Rmult u) d) c)
  = map (fun u => map (Rmult u) d) c.
Proof.
  rewrite flat_map_concat_map.
  rewrite <- (length_map (fun u => map (Rmult u) d) c) at 1.
  apply chunks_concat.
  rewrite Forall_forall. intros r Hr.
  apply in_map_iff in Hr. destruct Hr as [u [<- _]]. apply length_map.
Qed.

Lemma Ok_inj (X : Type) (x y : X) : Ok x = Ok y -> x = y.
Proof. now intros [= ->]. Qed.

(** C2. For a matrix [A] of shape (m, n), a matrix [Ax] of shape (m, k) whose
    column j is [matvec(x_j)] for vectors [x_j] of length n, a valid
    coordinate [0 <= idx < n] and a vector [delta] of length k:
    [update_matvec(Ax, delta, idx)] succeeds with a matrix of shape (m, k)
    whose column j is [matvec] of [x_j] after [x_j[idx] += delta[j]]. *)
Theorem update_matvec_batch_correct (m n k : nat) (op : LinearOperator.t)
    (Ax delta : ndarray) (xs : nat -> ndarray) (idx : Z) :
  is_matrix m n (LinearOperator.A op) -> is_matrix m k Ax ->
  is_vector k delta -> (0 <= idx < Z.of_nat n)%Z ->
  (forall j, j < k ->
     is_vector n (xs j) /\
     exists c,
       jnp.getitem_col Ax (Z.of_nat j) = Ok c /\
       LinearOperator.matvec op (xs j) = Ok c) ->
  exists Ax',
    LinearOperator.update_matvec op Ax delta idx = Ok Ax' /\
    is_matrix m k Ax' /\
    forall j, j < k ->
      exists c,
        jnp.getitem_col Ax' (Z.of_nat j) = Ok c /\
        LinearOperator.matvec op
          (perturb (xs j) idx (nth j (data delta) 0%R)) = Ok c.
Proof.
  intros HA HAx Hdelta Hi Hcols.
  pose proof HAx as [HsAx HdAx]. pose proof Hdelta as [_ Hdd].
  pose proof HA as [_ HdA].
  set (rows := chunks m n (data (LinearOperator.A op))) in *.
  set (col := column (Z.to_nat idx) rows).
  assert (Hcol : length col = m)
    by (unfold col, rows; now rewrite length_column, length_chunks).
  set (od := flat_map (fun u => map (Rmult u) (data delta)) col).
  assert (Hod : length od = m * k)
    by (unfold od; now rewrite length_outer_data, Hcol, Hdd).
  assert (Hupd : LinearOperator.update_matvec op Ax delta idx
                 = Ok (NDArray [m; k] (map2 Rplus (data Ax) od))).
  { unfold LinearOperator.update_matvec, ndim. rewrite HsAx.
    cbn [length Nat.eqb].
    rewrite (getitem_col_matrix m n _ idx HA Hi). cbn [bind].
    unfold jnp.add, jnp.outer. cbn [data]. fold rows col od.
    rewrite Hcol, Hdd, elementwise_same; cbn [shape data].
    - now rewrite HsAx.
    - exact HsAx.
    - now apply (is_matrix_wf m k).
    - unfold well_formed. cbn [shape data numel fold_right]. lia. }
  assert (HAx' : is_matrix m k (NDArray [m; k] (map2 Rplus (data Ax) od))).
  { split; [reflexivity|]. cbn [data]. rewrite length_map2; lia. }
  eexists. split; [exact Hupd|]. split; [exact HAx'|].
  intros j Hj. destruct (Hcols j Hj) as [Hxj [c [Hc1 Hc2]]].
  rewrite (getitem_col_matrix m k Ax (Z.of_nat j) HAx) in Hc1 by lia.
  rewrite (matvec_vector m n op (xs j) HA Hxj) in Hc2. fold rows in Hc2.
  rewrite <- Hc2 in Hc1. apply Ok_inj in Hc1. injection Hc1 as Hc1.
  rewrite Nat2Z.id in Hc1.
  eexists. split.
  - apply (getitem_col_matrix m k _ (Z.of_nat j) HAx'). lia.
  - rewrite (matvec_vector m n op _ HA
               (is_vector_perturb n (xs j) idx _ Hxj)).
    fold rows. cbn [data perturb]. do 2 f_equal.
    rewrite Nat2Z.id, chunks_map2, (column_combine Rplus k j).
    + rewrite Hc1. unfold od. rewrite <- Hcol at 1. rewrite <- Hdd at 1.
      rewrite chunks_outer_data, column_scaled by lia.
      symmetry. apply update_rows. destruct Hxj as [_ ->]. lia.
    + now apply chunks_lengths.
    + now apply chunks_lengths.
    + exact Hj.
Qed.

Lemma update_matvec_batch_correct_witness :
  exists Ax',
    LinearOperator.update_matvec op_ex Ax_batch_ex (vector [2; 4]%R) 1
    = Ok Ax' /\
    is_matrix 3 2 Ax' /\
    forall j, j < 2 ->
      exists c,
        jnp.getitem_col Ax' (Z.of_nat j) = Ok c /\
        LinearOperator.matvec op_ex
          (perturb (xs_ex j) 1 (nth j (data (vector [2; 4]%R)) 0%R)) = Ok c.
Proof.
  apply (update_matvec_batch_correct 3 2 2 op_ex Ax_batch_ex
           (vector [2; 4]%R) xs_ex 1).
  - split; reflexivity.
  - split; reflexivity.
  - split; reflexivity.
  - simpl; lia.
  - intros j Hj.
    destruct j as [|[|j]]; [| |lia].
    + split; [split; reflexivity|].
      exists (vector [2; 3; 5]%R). split; eval_array.
    + split; [split; reflexivity|].
      exists (vector [1; 1; 2]%R). split; eval_array.
Defined.

(** ** Indexing with any integer *)

Lemma clip_index_lt (idx : Z) (size : nat) :
  0 < size -> jnp.clip_index idx size < size.
Proof.
  intros Hs. unfold jnp.clip_index.
  destruct (Z.ltb_spec idx 0); lia.
Qed.

Lemma clip_index_negative (idx : Z) (size : nat) :
  (- Z.of_nat size <= idx < 0)%Z ->
  jnp.clip_index idx size = Z.to_nat (idx + Z.of_nat size).
Proof.
  intros H. unfold jnp.clip_index.
  destruct (Z.ltb_spec idx 0); lia.
Qed.

Lemma getitem_matrix_any (m n : nat) (a : ndarray) (idx : Z) :
  is_matrix m n a -> 0 < m -> jnp.readable idx m = true ->
  jnp.getitem a idx
  = Ok (NDArray [n] (nth (jnp.clip_index idx m) (chunks m n (data a)) [])).
Proof.
  intros [Hs _] Hm Hr. unfold jnp.getitem. rewrite Hs, Hr. cbn [negb].
  destruct (Nat.eqb_spec m 0) as [->|_]; [lia|].
  cbn [numel fold_right]. now rewrite Nat.mul_1_r.
Qed.

Lemma getitem_vector_any (n : nat) (v : ndarray) (idx : Z) :
  is_vector n v -> 0 < n -> jnp.readable idx n = true ->
  jnp.getitem v idx = Ok (scalar (nth (jnp.clip_index idx n) (data v) 0%R)).
Proof.
  intros [Hs Hd] Hn Hr. unfold jnp.getitem. rewrite Hs, Hr. cbn [negb].
  destruct (Nat.eqb_spec n 0) as [->|_]; [lia|].
  cbn [numel fold_right].
  replace (chunks n 1 (data v)) with (chunks (length (data v)) 1 (data v))
    by now rewrite Hd.
  rewrite chunks_singletons, nth_singletons; [reflexivity|].
  rewrite Hd. now apply clip_index_lt.
Qed.

Lemma getitem_col_matrix_any (m n : nat) (a : ndarray) (idx : Z) :
  is_matrix m n a -> 0 < n -> jnp.readable idx n = true ->
  jnp.getitem_col a idx
  = Ok (NDArray [m] (column (jnp.clip_index idx n) (chunks m n (data a)))).
Proof.
  intros [Hs Hd] Hn Hread. unfold jnp.getitem_col. rewrite Hs, Hread.
  cbn [negb].
  destruct (Nat.eqb_spec n 0) as [->|_]; [lia|].
  cbn [numel fold_right].
  rewrite Nat.mul_1_r. do 2 f_equal.
  unfold column. rewrite <- concat_map_singleton. f_equal.
  apply map_ext_in. intros r Hr.
  pose proof (chunks_lengths m n (data a) Hd) as HF.
  rewrite Forall_forall in HF. specialize (HF r Hr).
  replace (chunks n 1 r) with (chunks (length r) 1 r) by now rewrite HF.
  rewrite chunks_singletons.
  apply nth_singletons. rewrite HF. now apply clip_index_lt.
Qed.

Lemma nth_columns (k j : nat) (rows : list (list R)) :
  j < k -> nth j (columns k rows) [] = column j rows.
Proof.
  intros Hj. unfold columns.
  rewrite nth_indep with (d' := column 0 rows)
    by now rewrite length_map, length_seq.
  rewrite (map_nth (fun j => column j rows)), seq_nth by assumption.
  reflexivity.
Qed.

Lemma is_vector_column (m n j : nat) (a : ndarray) :
  is_matrix m n a ->
  is_vector m (NDArray [m] (column j (chunks m n (data a)))).
Proof.
  intros _. split; [reflexivity|]. cbn [data].
  now rewrite length_column, length_chunks.
Qed.

(** X2. For a matrix [A] of shape (m, n), a vector [x] of length n and every
    integer [idx] (negative or beyond the last row included):
    [matvec_element(x, idx)] gives what indexing [matvec(x)] at [idx] gives,
    the same value or the same error. *)
Theorem matvec_element_any_index (m n : nat) (op : LinearOperator.t)
    (x : ndarray) (idx : Z) :
  is_matrix m n (LinearOperator.A op) -> is_vector n x ->
  LinearOperator.matvec_element op x idx
  = (Ax <- LinearOperator.matvec op x ;; jnp.getitem Ax idx).
Proof.
  intros HA Hx.
  rewrite (matvec_vector m n op x HA Hx). cbn [bind].
  destruct (jnp.readable idx m) eqn:Hread.
  2: { unfold LinearOperator.matvec_element, jnp.getitem. cbn [shape].
       destruct HA as [-> _]. now rewrite Hread. }
  destruct (Nat.eq_dec m 0) as [->|Hm].
  - unfold LinearOperator.matvec_element, jnp.getitem. cbn [shape].
    destruct HA as [-> _]. now rewrite Hread.
  - assert (Hm' : 0 < m) by lia.
    unfold LinearOperator.matvec_element.
    rewrite (getitem_matrix_any m n _ idx HA Hm' Hread). cbn [bind].
    rewrite (dot_vector_vector n _ x); [| | exact Hx].
    + rewrite (getitem_vector_any m _ idx); [| |exact Hm'|exact Hread].
      * cbn [data]. do 2 f_equal. symmetry.
        exact (map_nth (fun r => inner r (data x))
                 (chunks m n (data (LinearOperator.A op))) []
                 (jnp.clip_index idx m)).
      * split; [reflexivity|]. cbn [data].
        now rewrite length_map, length_chunks.
    + apply is_vector_row; [exact HA | now apply clip_index_lt].
Qed.

Lemma matvec_element_any_index_witness :
  LinearOperator.matvec_element op_ex (vector [2; 3]%R) (-1)
  = (Ax <- LinearOperator.matvec op_ex (vector [2; 3]%R) ;;
     jnp.getitem Ax (-1)).
Proof.
  apply (matvec_element_any_index 3 2 op_ex (vector [2; 3]%R) (-1)).
  - split; reflexivity.
  - split; reflexivity.
Defined.

(** X1. For a matrix [A] of shape (m, n), a vector [y] of length m and every
    integer [idx]: [rmatvec_element(y, idx)] gives what indexing [rmatvec(y)]
    at [idx] gives, the same value or the same error; for a valid column
    index [0 <= idx < n] that is the inner product of column [idx] with [y]. *)
Theorem rmatvec_element_any_index (m n : nat) (op : LinearOperator.t)
    (y : ndarray) (idx : Z) :
  is_matrix m n (LinearOperator.A op) -> is_vector m y ->
  LinearOperator.rmatvec_element op y idx
  = (ATy <- LinearOperator.rmatvec op y ;; jnp.getitem ATy idx) /\
  ((0 <= idx < Z.of_nat n)%Z ->
   LinearOperator.rmatvec_element op y idx
   = Ok (scalar (inner (column (Z.to_nat idx)
                          (chunks m n (data (LinearOperator.A op))))
                   (data y)))).
Proof.
  intros HA Hy.
  assert (Hpos : 0 < n -> jnp.readable idx n = true ->
            LinearOperator.rmatvec_element op y idx
            = Ok (scalar (inner (column (jnp.clip_index idx n)
                                   (chunks m n (data (LinearOperator.A op))))
                            (data y)))).
  { intros Hn Hread. unfold LinearOperator.rmatvec_element.
    rewrite (getitem_col_matrix_any m n _ idx HA Hn Hread). cbn [bind].
    rewrite (dot_vector_vector m _ y); [reflexivity | | exact Hy].
    now apply (is_vector_column m n). }
  split.
  - rewrite (rmatvec_vector m n op y HA Hy). cbn [bind].
    destruct (jnp.readable idx n) eqn:Hread.
    2: { unfold LinearOperator.rmatvec_element, jnp.getitem_col, jnp.getitem.
         cbn [shape]. destruct HA as [-> _]. now rewrite Hread. }
    destruct (Nat.eq_dec n 0) as [->|Hn].
    + unfold LinearOperator.rmatvec_element, jnp.getitem_col, jnp.getitem.
      cbn [shape]. destruct HA as [-> _]. now rewrite Hread.
    + assert (Hn' : 0 < n) by lia.
      rewrite (Hpos Hn' eq_refl).
      rewrite (getitem_vector_any n _ idx); [| |exact Hn'|exact Hread].
      * cbn [data]. do 2 f_equal.
        rewrite <- (nth_columns n (jnp.clip_index idx n))
          by now apply clip_index_lt.
        symmetry.
        exact (map_nth (fun c => inner c (data y))
                 (columns n (chunks m n (data (LinearOperator.A op)))) []
                 (jnp.clip_index idx n)).
      * split; [reflexivity|]. cbn [data].
        now rewrite length_map, length_columns.
  - intros Hi. rewrite Hpos; [|lia|apply readable_on_axis; lia].
    now rewrite clip_index_in_range.
Qed.

Lemma rmatvec_element_any_index_witness :
  LinearOperator.rmatvec_element op_ex (vector [1; 1; 1]%R) 1
  = (ATy <- LinearOperator.rmatvec op_ex (vector [1; 1; 1]%R) ;;
     jnp.getitem ATy 1) /\
  ((0 <= 1 < Z.of_nat 2)%Z ->
   LinearOperator.rmatvec_element op_ex (vector [1; 1; 1]%R) 1
   = Ok (scalar (inner (column (Z.to_nat 1)
                          (chunks 3 2 (data (LinearOperator.A op_ex))))
                   (data (vector [1; 1; 1]%R))))).
Proof.
  apply (rmatvec_element_any_index 3 2 op_ex (vector [1; 1; 1]%R) 1).
  - split; reflexivity.
  - split; reflexivity.
Defined.

(** ** LinearOperator: incremental update of the adjoint product *)

Lemma map2_map_same (X : Type) (f : R -> R -> R) (a b : X -> R) (l : list X) :
  map2 f (map a l) (map b l) = map (fun j => f (a j) (b j)) l.
Proof.
  induction l as [|j l IH]; simpl; [reflexivity|]. now rewrite IH.
Qed.

Lemma nth_column (i j : nat) (rows : list (list R)) :
  i < length rows ->
  nth i (column j rows) 0%R = nth j (nth i rows []) 0%R.
Proof.
  intros Hi. unfold column.
  rewrite nth_indep with (d' := nth j [] 0%R) by now rewrite length_map.
  exact (map_nth (fun r => nth j r 0%R) rows [] i).
Qed.

Lemma update_columns (n : nat) (rows : list (list R)) (y : list R) (i : nat)
    (delta : R) :
  Forall (fun r => length r = n) rows -> i < length rows -> i < length y ->
  map2 Rplus (map (fun c => inner c y) (columns n rows))
       (map (Rmult delta) (nth i rows []))
  = map (fun c => inner c (add_at y i delta)) (columns n rows).
Proof.
  intros HF Hi Hy.
  assert (Hrow : length (nth i rows []) = n).
  { rewrite Forall_forall in HF. now apply HF, nth_In. }
  rewrite <- (map_nth_seq (nth i rows [])) at 1. rewrite Hrow.
  unfold columns. rewrite !map_map, map2_map_same.
  apply map_ext. intros j.
  now rewrite inner_add_at, nth_column.
Qed.

(** X3. For a matrix [A] of shape (m, n), a vector [y] of length m, a valid
    row index [0 <= idx < m] and a scalar [delta]: [rmatvec(y)] succeeds, and
    [update_rmatvec(rmatvec(y), delta, idx)] is [rmatvec(y')], where [y'] is
    [y] after [y[idx] += delta]. *)
Theorem update_rmatvec_vector_correct (m n : nat) (op : LinearOperator.t)
    (y : ndarray) (delta : R) (idx : Z) :
  is_matrix m n (LinearOperator.A op) -> is_vector m y ->
  (0 <= idx < Z.of_nat m)%Z ->
  exists ATy ATy',
    LinearOperator.rmatvec op y = Ok ATy /\
    LinearOperator.rmatvec op (perturb y idx delta) = Ok ATy' /\
    LinearOperator.update_rmatvec op ATy (scalar delta) idx = Ok ATy'.
Proof.
  intros HA Hy Hi.
  pose proof (is_vector_perturb m y idx delta Hy) as Hy'.
  do 2 eexists. split; [now apply (rmatvec_vector m n)|].
  split; [now apply (rmatvec_vector m n)|].
  unfold LinearOperator.update_rmatvec, ndim. cbn [shape length Nat.eqb].
  rewrite (getitem_matrix m n _ idx HA Hi). cbn [bind].
  pose proof HA as [_ HdA].
  assert (Hrow : length (nth (Z.to_nat idx)
                           (chunks m n (data (LinearOperator.A op))) []) = n)
    by (apply nth_chunks_length; [exact HdA | lia]).
  unfold jnp.multiply, jnp.add.
  rewrite elementwise_scalar_l
    by (unfold well_formed; cbn [shape data numel fold_right]; lia).
  cbn [bind shape data].
  rewrite elementwise_same; cbn [shape data].
  - rewrite (update_columns n); [reflexivity | | |].
    + now apply chunks_lengths.
    + rewrite length_chunks. lia.
    + destruct Hy as [_ ->]. lia.
  - reflexivity.
  - unfold well_formed. cbn [shape data numel fold_right].
    rewrite length_map, length_columns. lia.
  - unfold well_formed. cbn [shape data numel fold_right].
    rewrite length_map. lia.
Qed.

Lemma update_rmatvec_vector_correct_witness :
  exists ATy ATy',
    LinearOperator.rmatvec op_ex (vector [1; 1; 1]%R) = Ok ATy /\
    LinearOperator.rmatvec op_ex (perturb (vector [1; 1; 1]%R) 2 4) = Ok ATy' /\
    LinearOperator.update_rmatvec op_ex ATy (scalar 4) 2 = Ok ATy'.
Proof.
  apply (update_rmatvec_vector_correct 3 2 op_ex (vector [1; 1; 1]%R) 4 2).
  - split; reflexivity.
  - split; reflexivity.
  - simpl; lia.
Defined.

(** ** LinearOperator: more on the update of the forward product *)

(** X4. [update_matvec] on an array whose rank is neither 1 nor 2 fails with
    [ValueError], whatever the operator, [delta] and [idx] are: the rank is
    checked before the matrix is indexed. *)
Theorem update_matvec_rank_error (op : LinearOperator.t)
    (Ax delta : ndarray) (idx : Z) :
  ndim Ax <> 1 -> ndim Ax <> 2 ->
  LinearOperator.update_matvec op Ax delta idx
  = Raise (ValueError "Ax should be a vector or a matrix.").
Proof.
  intros H1 H2. unfold LinearOperator.update_matvec.
  destruct (Nat.eqb_spec (ndim Ax) 1) as [E|_]; [contradiction|].
  destruct (Nat.eqb_spec (ndim Ax) 2) as [E|_]; [contradiction|].
  reflexivity.
Qed.

Lemma update_matvec_rank_error_witness :
  LinearOperator.update_matvec op_ex (scalar 4) (scalar 1) 9
  = Raise (ValueError "Ax should be a vector or a matrix.").
Proof.
  apply (update_matvec_rank_error op_ex (scalar 4) (scalar 1) 9);
    unfold ndim; simpl; lia.
Defined.

Lemma update_matvec_vector_any (m n : nat) (op : LinearOperator.t)
    (Ax : ndarray) (delta : R) (idx : Z) :
  is_matrix m n (LinearOperator.A op) -> 0 < n -> is_vector m Ax ->
  jnp.readable idx n = true ->
  LinearOperator.update_matvec op Ax (scalar delta) idx
  = Ok (NDArray [m]
          (map2 Rplus (data Ax)
             (map (Rmult delta)
                (column (jnp.clip_index idx n)
                   (chunks m n (data (LinearOperator.A op))))))).
Proof.
  intros HA Hn [HsAx HdAx] Hread.
  unfold LinearOperator.update_matvec, ndim. rewrite HsAx.
  cbn [length Nat.eqb].
  rewrite (getitem_col_matrix_any m n _ idx HA Hn Hread). cbn [bind].
  unfold jnp.multiply, jnp.add.
  rewrite elementwise_scalar_l
    by (unfold well_formed; simpl; rewrite length_column, length_chunks; lia).
  cbn [bind shape data].
  rewrite elementwise_same; cbn [shape data].
  - now rewrite HsAx.
  - exact HsAx.
  - unfold well_formed. rewrite HsAx, HdAx. simpl. lia.
  - unfold well_formed. simpl.
    rewrite length_map, length_column, length_chunks. lia.
Qed.

Lemma is_vector_updated (m : nat) (Ax c : list R) (delta : R) :
  length Ax = m -> length c = m ->
  is_vector m (NDArray [m] (map2 Rplus Ax (map (Rmult delta) c))).
Proof.
  intros H1 H2. split; [reflexivity|]. cbn [data].
  rewrite length_map2; [exact H1|]. rewrite length_map. lia.
Qed.

Lemma map2_add_scaled_twice (u c : list R) (a b : R) :
  map2 Rplus (map2 Rplus u (map (Rmult a) c)) (map (Rmult b) c)
  = map2 Rplus u (map (Rmult (a + b)) c).
Proof.
  revert c; induction u as [|x u IH]; intros [|v c]; simpl; try reflexivity.
  rewrite IH. f_equal. ring.
Qed.

Lemma map2_add_scaled_zero (u c : list R) :
  length c = length u -> map2 Rplus u (map (Rmult 0) c) = u.
Proof.
  revert c; induction u as [|x u IH]; intros [|v c] H; simpl in *;
    try discriminate; [reflexivity|].
  rewrite IH by lia. f_equal. ring.
Qed.

Lemma map2_add_scaled_swap (u c d : list R) (a b : R) :
  map2 Rplus (map2 Rplus u (map (Rmult a) c)) (map (Rmult b) d)
  = map2 Rplus (map2 Rplus u (map (Rmult b) d)) (map (Rmult a) c).
Proof.
  revert c d; induction u as [|x u IH]; intros [|v c] [|w d]; simpl;
    try reflexivity.
  rewrite IH. f_equal. ring.
Qed.

(** X5. For a matrix [A] of shape (m, n) with n > 0, any vector [Ax] of
    length m, an index [idx] that fits 32 bits and scalars [d1], [d2]: two
    updates at the same coordinate succeed and add up, that is, updating by
    [d1] and then by [d2] gives what one update by [d1 + d2] gives; in
    particular updating by [d1] and then by [-d1] gives [Ax] back (in exact
    arithmetic). *)
Theorem update_matvec_same_coordinate (m n : nat) (op : LinearOperator.t)
    (Ax : ndarray) (d1 d2 : R) (idx : Z) :
  is_matrix m n (LinearOperator.A op) -> 0 < n -> is_vector m Ax ->
  (-2147483648 <= idx < 2147483648)%Z ->
  exists Ax1 Ax2,
    LinearOperator.update_matvec op Ax (scalar d1) idx = Ok Ax1 /\
    LinearOperator.update_matvec op Ax1 (scalar d2) idx = Ok Ax2 /\
    LinearOperator.update_matvec op Ax (scalar (d1 + d2)) idx = Ok Ax2 /\
    LinearOperator.update_matvec op Ax1 (scalar (- d1)) idx = Ok Ax.
Proof.
  intros HA Hn HAx Hidx. pose proof HAx as [HsAx HdAx].
  pose proof (readable_int32 idx n Hidx) as Hread.
  set (c := column (jnp.clip_index idx n)
              (chunks m n (data (LinearOperator.A op)))).
  assert (Hc : length c = m)
    by (unfold c; now rewrite length_column, length_chunks).
  pose proof (is_vector_updated m (data Ax) c d1 HdAx Hc) as H1.
  do 2 eexists. split; [now apply (update_matvec_vector_any m n)|].
  rewrite !(update_matvec_vector_any m n op _ _ idx HA Hn H1 Hread).
  rewrite (update_matvec_vector_any m n op _ _ idx HA Hn HAx Hread).
  fold c. cbn [data]. rewrite !map2_add_scaled_twice.
  repeat split.
  replace (d1 + - d1)%R with 0%R by ring.
  rewrite map2_add_scaled_zero by lia.
  destruct Ax as [sh d]. simpl in *. now subst sh.
Qed.

Lemma update_matvec_same_coordinate_witness :
  exists Ax1 Ax2,
    LinearOperator.update_matvec op_ex (vector [2; 3; 5]%R) (scalar 2) 1
    = Ok Ax1 /\
    LinearOperator.update_matvec op_ex Ax1 (scalar 7) 1 = Ok Ax2 /\
    LinearOperator.update_matvec op_ex (vector [2; 3; 5]%R) (scalar (2 + 7)) 1
    = Ok Ax2 /\
    LinearOperator.update_matvec op_ex Ax1 (scalar (- 2)) 1
    = Ok (vector [2; 3; 5]%R).
Proof.
  apply (update_matvec_same_coordinate 3 2 op_ex (vector [2; 3; 5]%R) 2 7 1).
  - split; reflexivity.
  - lia.
  - split; reflexivity.
  - lia.
Defined.

(** X6. For a matrix [A] of shape (m, n) with n > 0, any vector [Ax] of
    length m and indices [i], [j] that fit 32 bits: updates at two
    coordinates commute, updating at [i] by [d1] and then at [j] by [d2] gives
    what the updates in the other order give. *)
Theorem update_matvec_commute (m n : nat) (op : LinearOperator.t)
    (Ax : ndarray) (d1 d2 : R) (i j : Z) :
  is_matrix m n (LinearOperator.A op) -> 0 < n -> is_vector m Ax ->
  (-2147483648 <= i < 2147483648)%Z -> (-2147483648 <= j < 2147483648)%Z ->
  exists Ai Aj Aij,
    LinearOperator.update_matvec op Ax (scalar d1) i = Ok Ai /\
    LinearOperator.update_matvec op Ax (scalar d2) j = Ok Aj /\
    LinearOperator.update_matvec op Ai (scalar d2) j = Ok Aij /\
    LinearOperator.update_matvec op Aj (scalar d1) i = Ok Aij.
Proof.
  intros HA Hn HAx Hi Hj. pose proof HAx as [HsAx HdAx].
  pose proof (readable_int32 i n Hi) as Hri.
  pose proof (readable_int32 j n Hj) as Hrj.
  set (ci := column (jnp.clip_index i n)
               (chunks m n (data (LinearOperator.A op)))).
  set (cj := column (jnp.clip_index j n)
               (chunks m n (data (LinearOperator.A op)))).
  assert (Hci : length ci = m)
    by (unfold ci; now rewrite length_column, length_chunks).
  assert (Hcj : length cj = m)
    by (unfold cj; now rewrite length_column, length_chunks).
  pose proof (is_vector_updated m (data Ax) ci d1 HdAx Hci) as H1.
  pose proof (is_vector_updated m (data Ax) cj d2 HdAx Hcj) as H2.
  do 3 eexists.
  split; [now apply (update_matvec_vector_any m n)|].
  split; [now apply (update_matvec_vector_any m n)|].
  rewrite (update_matvec_vector_any m n op _ _ j HA Hn H1 Hrj).
  rewrite (update_matvec_vector_any m n op _ _ i HA Hn H2 Hri).
  fold ci cj. cbn [data]. split; [reflexivity|].
  now rewrite map2_add_scaled_swap.
Qed.

Lemma update_matvec_commute_witness :
  exists Ai Aj Aij,
    LinearOperator.update_matvec op_ex (vector [2; 3; 5]%R) (scalar 2) 0
    = Ok Ai /\
    LinearOperator.update_matvec op_ex (vector [2; 3; 5]%R) (scalar 7) 1
    = Ok Aj /\
    LinearOperator.update_matvec op_ex Ai (scalar 7) 1 = Ok Aij /\
    LinearOperator.update_matvec op_ex Aj (scalar 2) 0 = Ok Aij.
Proof.
  apply (update_matvec_commute 3 2 op_ex (vector [2; 3; 5]%R) 2 7 0 1).
  - split; reflexivity.
  - lia.
  - split; reflexivity.
  - lia.
  - lia.
Defined.

(** ** LinearOperator: the products are linear *)

Lemma inner_linear (r x y : list R) (c : R) :
  length x = length y ->
  inner r (map2 Rplus (map (Rmult c) x) y)
  = (c * inner r x + inner r y)%R.
Proof.
  revert x y; induction r as [|a r IH]; intros [|u x] [|v y] H; simpl in *;
    try discriminate; try ring.
  rewrite IH by lia. ring.
Qed.

Lemma linear_rows (p q : nat) (L : list (list R)) (x y : ndarray) (c : R) :
  length L = p -> is_vector q x -> is_vector q y ->
  exists cx s cFx,
    jnp.multiply (scalar c) x = Ok cx /\
    jnp.add cx y = Ok s /\
    is_vector q s /\
    jnp.multiply (scalar c)
      (NDArray [p] (map (fun r => inner r (data x)) L)) = Ok cFx /\
    jnp.add cFx (NDArray [p] (map (fun r => inner r (data y)) L))
    = Ok (NDArray [p] (map (fun r => inner r (data s)) L)).
Proof.
  intros HL [Hsx Hdx] [Hsy Hdy].
  unfold jnp.multiply, jnp.add.
  rewrite (elementwise_scalar_l Rmult c x)
    by (unfold well_formed; rewrite Hsx, Hdx; simpl; lia).
  rewrite Hsx.
  rewrite (elementwise_scalar_l Rmult c
             (NDArray [p] (map (fun r => inner r (data x)) L)))
    by (unfold well_formed; simpl; rewrite length_map; lia).
  cbn [shape data].
  do 3 eexists. split; [reflexivity|].
  rewrite elementwise_same;
    [ | cbn [shape]; now rewrite Hsy
      | unfold well_formed; simpl; rewrite length_map; lia
      | unfold well_formed; rewrite Hsy, Hdy; simpl; lia ].
  cbn [shape data]. split; [reflexivity|]. split.
  - split; [reflexivity|]. cbn [data].
    rewrite length_map2; rewrite length_map; lia.
  - split; [reflexivity|].
    rewrite elementwise_same;
      [ | reflexivity
        | unfold well_formed; simpl; rewrite !length_map; lia
        | unfold well_formed; simpl; rewrite length_map; lia ].
    cbn [shape data]. do 2 f_equal.
    rewrite map_map, map2_map_same.
    apply map_ext. intros r. rewrite inner_linear; [reflexivity | lia].
Qed.

(** X7. [matvec] is linear.  For a matrix [A] of shape (m, n), vectors [x]
    and [y] of length n and a scalar [c]: all the operations succeed and
    [matvec(c * x + y)] is [c * matvec(x) + matvec(y)]. *)
Theorem matvec_linear (m n : nat) (op : LinearOperator.t) (x y : ndarray)
    (c : R) :
  is_matrix m n (LinearOperator.A op) -> is_vector n x -> is_vector n y ->
  exists cx s Ax Ay cAx r,
    jnp.multiply (scalar c) x = Ok cx /\
    jnp.add cx y = Ok s /\
    LinearOperator.matvec op x = Ok Ax /\
    LinearOperator.matvec op y = Ok Ay /\
    jnp.multiply (scalar c) Ax = Ok cAx /\
    LinearOperator.matvec op s = Ok r /\
    jnp.add cAx Ay = Ok r.
Proof.
  intros HA Hx Hy.
  destruct (linear_rows m n (chunks m n (data (LinearOperator.A op))) x y c
              (length_chunks _ _ _) Hx Hy)
    as [cx [s [cFx [H1 [H2 [Hs [H3 H4]]]]]]].
  exists cx, s. do 4 eexists.
  split; [exact H1|]. split; [exact H2|].
  split; [now apply (matvec_vector m n)|].
  split; [now apply (matvec_vector m n)|].
  split; [exact H3|].
  split; [now apply (matvec_vector m n)|]. exact H4.
Qed.

Lemma matvec_linear_witness :
  exists cx s Ax Ay cAx r,
    jnp.multiply (scalar 4) (vector [2; 3]%R) = Ok cx /\
    jnp.add cx (vector [1; 1]%R) = Ok s /\
    LinearOperator.matvec op_ex (vector [2; 3]%R) = Ok Ax /\
    LinearOperator.matvec op_ex (vector [1; 1]%R) = Ok Ay /\
    jnp.multiply (scalar 4) Ax = Ok cAx /\
    LinearOperator.matvec op_ex s = Ok r /\
    jnp.add cAx Ay = Ok r.
Proof.
  apply (matvec_linear 3 2 op_ex (vector [2; 3]%R) (vector [1; 1]%R) 4).
  - split; reflexivity.
  - split; reflexivity.
  - split; reflexivity.
Defined.

(** X8. [rmatvec] is linear.  For a matrix [A] of shape (m, n), vectors [x]
    and [y] of length m and a scalar [c]: all the operations succeed and
    [rmatvec(c * x + y)] is [c * rmatvec(x) + rmatvec(y)]. *)
Theorem rmatvec_linear (m n : nat) (op : LinearOperator.t) (x y : ndarray)
    (c : R) :
  is_matrix m n (LinearOperator.A op) -> is_vector m x -> is_vector m y ->
  exists cx s ATx ATy cATx r,
    jnp.multiply (scalar c) x = Ok cx /\
    jnp.add cx y = Ok s /\
    LinearOperator.rmatvec op x = Ok ATx /\
    LinearOperator.rmatvec op y = Ok ATy /\
    jnp.multiply (scalar c) ATx = Ok cATx /\
    LinearOperator.rmatvec op s = Ok r /\
    jnp.add cATx ATy = Ok r.
Proof.
  intros HA Hx Hy.
  destruct (linear_rows n m
              (columns n (chunks m n (data (LinearOperator.A op)))) x y c
              (length_columns _ _) Hx Hy)
    as [cx [s [cFx [H1 [H2 [Hs [H3 H4]]]]]]].
  exists cx, s. do 4 eexists.
  split; [exact H1|]. split; [exact H2|].
  split; [now apply (rmatvec_vector m n)|].
  split; [now apply (rmatvec_vector m n)|].
  split; [exact H3|].
  split; [now apply (rmatvec_vector m n)|]. exact H4.
Qed.

Lemma rmatvec_linear_witness :
  exists cx s ATx ATy cATx r,
    jnp.multiply (scalar 4) (vector [1; 1; 1]%R) = Ok cx /\
    jnp.add cx (vector [0; 2; 5]%R) = Ok s /\
    LinearOperator.rmatvec op_ex (vector [1; 1; 1]%R) = Ok ATx /\
    LinearOperator.rmatvec op_ex (vector [0; 2; 5]%R) = Ok ATy /\
    jnp.multiply (scalar 4) ATx = Ok cATx /\
    LinearOperator.rmatvec op_ex s = Ok r /\
    jnp.add cATx ATy = Ok r.
Proof.
  apply (rmatvec_linear 3 2 op_ex (vector [1; 1; 1]%R) (vector [0; 2; 5]%R) 4).
  - split; reflexivity.
  - split; reflexivity.
  - split; reflexivity.
Defined.

(** ** LinearOperator: the forward product of a batch *)

Lemma length_flat_map_const (X : Type) (g : X -> list R) (k : nat)
    (L : list X) :
  (forall r, length (g r) = k) -> length (flat_map g L) = length L * k.
Proof.
  intros Hg. induction L as [|r L IH]; simpl; [reflexivity|].
  now rewrite length_app, Hg, IH.
Qed.

Lemma chunks_flat_map (X : Type) (g : X -> list R) (k : nat) (L : list X) :
  (forall r, length (g r) = k) ->
  chunks (length L) k (flat_map g L) = map g L.
Proof.
  intros Hg. rewrite flat_map_concat_map.
  rewrite <- (length_map g L) at 1.
  apply chunks_concat.
  rewrite Forall_forall. intros c Hc.
  apply in_map_iff in Hc. destruct Hc as [r [<- _]]. apply Hg.
Qed.

Lemma dot_matrix_matrix (m n k : nat) (a b : ndarray) :
  is_matrix m n a -> is_matrix n k b ->
  jnp.dot a b
  = Ok (NDArray [m; k]
          (flat_map
             (fun r => map (inner r) (columns k (chunks n k (data b))))
             (chunks m n (data a)))).
Proof.
  intros [Hs _] [Hb Hdb]. unfold jnp.dot. rewrite Hs, Hb. simpl.
  rewrite Nat.eqb_refl, Nat.mul_1_r, firstn_all2 by lia.
  do 2 f_equal. apply flat_map_ext. intros r. apply app_nil_r.
Qed.

(** X9. [matvec] of a batch works column by column.  For a matrix [A] of
    shape (m, n) and a matrix [X] of shape (n, k): [matvec(X)] succeeds with a
    matrix of shape (m, k) whose column j is [matvec] of column j of [X]. *)
Theorem matvec_batch_columns (m n k : nat) (op : LinearOperator.t)
    (X : ndarray) :
  is_matrix m n (LinearOperator.A op) -> is_matrix n k X ->
  exists AX,
    LinearOperator.matvec op X = Ok AX /\
    is_matrix m k AX /\
    forall j, j < k ->
      exists xj c,
        jnp.getitem_col X (Z.of_nat j) = Ok xj /\
        is_vector n xj /\
        jnp.getitem_col AX (Z.of_nat j) = Ok c /\
        LinearOperator.matvec op xj = Ok c.
Proof.
  intros HA HX.
  set (rows := chunks m n (data (LinearOperator.A op))).
  set (cols := columns k (chunks n k (data X))).
  assert (Hg : forall r : list R, length (map (inner r) cols) = k)
    by (intros r; unfold cols; now rewrite length_map, length_columns).
  assert (Hrows : length rows = m) by apply length_chunks.
  assert (HAX : is_matrix m k
                  (NDArray [m; k]
                     (flat_map (fun r => map (inner r) cols) rows))).
  { split; [reflexivity|]. cbn [data].
    now rewrite (length_flat_map_const _ _ k _ Hg), Hrows. }
  eexists. split; [now apply (dot_matrix_matrix m n k)|].
  fold rows cols. split; [exact HAX|].
  intros j Hj.
  assert (Hxj : is_vector n (NDArray [n] (column j (chunks n k (data X))))).
  { split; [reflexivity|]. cbn [data].
    now rewrite length_column, length_chunks. }
  do 2 eexists.
  split; [apply (getitem_col_matrix n k X _ HX); lia|].
  rewrite Nat2Z.id. split; [exact Hxj|].
  split; [apply (getitem_col_matrix m k _ _ HAX); lia|].
  rewrite (matvec_vector m n op _ HA Hxj). fold rows. cbn [data].
  do 2 f_equal. rewrite Nat2Z.id.
  rewrite <- Hrows at 1. rewrite (chunks_flat_map _ _ k _ Hg).
  symmetry. unfold column at 1. rewrite map_map. apply map_ext. intros r.
  rewrite nth_indep with (d' := inner r []) by now rewrite Hg.
  rewrite (map_nth (inner r)). unfold cols. now rewrite nth_columns.
Qed.

Lemma matvec_batch_columns_witness :
  exists AX,
    LinearOperator.matvec op_ex X_batch_ex = Ok AX /\
    is_matrix 3 2 AX /\
    forall j, j < 2 ->
      exists xj c,
        jnp.getitem_col X_batch_ex (Z.of_nat j) = Ok xj /\
        is_vector 2 xj /\
        jnp.getitem_col AX (Z.of_nat j) = Ok c /\
        LinearOperator.matvec op_ex xj = Ok c.
Proof.
  apply (matvec_batch_columns 3 2 2 op_ex X_batch_ex).
  - split; reflexivity.
  - split; reflexivity.
Defined.

(** ** LinearOperator: shapes of the results *)

(** X10. For a matrix [A] of shape (m, n): [shape()] is (m, n), [matvec] of a
    vector of length n succeeds with a vector of length m, and [rmatvec] of a
    vector of length m succeeds with a vector of length n. *)
Theorem product_shapes (m n : nat) (op : LinearOperator.t) :
  is_matrix m n (LinearOperator.A op) ->
  LinearOperator.shape op = [m; n] /\
  (forall x, is_vector n x ->
     exists v, LinearOperator.matvec op x = Ok v /\ is_vector m v) /\
  (forall y, is_vector m y ->
     exists v, LinearOperator.rmatvec op y = Ok v /\ is_vector n v).
Proof.
  intros HA. split; [apply HA|]. split.
  - intros x Hx. eexists. split; [now apply (matvec_vector m n)|].
    split; [reflexivity|]. cbn [data]. now rewrite length_map, length_chunks.
  - intros y Hy. eexists. split; [now apply (rmatvec_vector m n)|].
    split; [reflexivity|]. cbn [data]. now rewrite length_map, length_columns.
Qed.

Lemma product_shapes_witness :
  LinearOperator.shape op_ex = [3; 2] /\
  (forall x, is_vector 2 x ->
     exists v, LinearOperator.matvec op_ex x = Ok v /\ is_vector 3 v) /\
  (forall y, is_vector 3 y ->
     exists v, LinearOperator.rmatvec op_ex y = Ok v /\ is_vector 2 v).
Proof.
  apply (product_shapes 3 2 op_ex). split; reflexivity.
Defined.

(** X11. A product with a vector of the wrong length fails.  For a matrix
    [A] of shape (m, n): [matvec] of a vector whose length is not n returns no
    value, and [rmatvec] of a vector whose length is not m returns no
    value. *)
Theorem product_length_mismatch (m n p : nat) (op : LinearOperator.t)
    (x : ndarray) :
  is_matrix m n (LinearOperator.A op) -> is_vector p x ->
  (p <> n -> exists e, LinearOperator.matvec op x = Raise e) /\
  (p <> m -> exists e, LinearOperator.rmatvec op x = Raise e).
Proof.
  intros HA [Hx _]. split; intros Hp.
  - unfold LinearOperator.matvec, jnp.dot.
    destruct HA as [-> _]. rewrite Hx. simpl.
    destruct (Nat.eqb_spec n p); [lia | eauto].
  - unfold LinearOperator.rmatvec.
    pose proof (is_matrix_T m n _ HA) as [HT _].
    unfold jnp.dot. rewrite HT, Hx. simpl.
    destruct (Nat.eqb_spec m p); [lia | eauto].
Qed.

Lemma product_length_mismatch_witness :
  (3 <> 2 -> exists e, LinearOperator.matvec op_ex (vector [1; 1; 1]%R)
                       = Raise e) /\
  (3 <> 3 -> exists e, LinearOperator.rmatvec op_ex (vector [1; 1; 1]%R)
                       = Raise e).
Proof.
  apply (product_length_mismatch 3 2 3 op_ex (vector [1; 1; 1]%R)).
  - split; reflexivity.
  - split; reflexivity.
Defined.

(** ** LinearOperator: the norm of a zero column *)

Lemma sum_sq_zeros (l : list R) :
  Forall (fun v => v = 0%R) l -> sum_sq l = 0%R.
Proof.
  induction 1 as [|v l Hv _ IH]; [reflexivity|].
  change (sum_sq (v :: l)) with (v ^ 2 + sum_sq l)%R.
  rewrite IH, Hv. ring.
Qed.

(** X12. For a matrix [A] of shape (m, n): both [column_l2_norms()] and
    [column_l2_norms(squared=True)] succeed, and a column of [A] that is
    entirely zero has norm 0 and squared norm 0 (nothing guards a later
    division by these values). *)
Theorem column_l2_norms_zero_column (m n : nat) (op : LinearOperator.t) :
  is_matrix m n (LinearOperator.A op) ->
  exists s r,
    LinearOperator.column_l2_norms op true = Ok s /\
    LinearOperator.column_l2_norms op false = Ok r /\
    forall j, j < n ->
      Forall (fun v => v = 0%R)
        (column j (chunks m n (data (LinearOperator.A op)))) ->
      nth j (data s) 0%R = 0%R /\ nth j (data r) 0%R = 0%R.
Proof.
  intros HA.
  destruct (column_l2_norms_squared m n op HA) as [s [Hs [Hv Hsum]]].
  exists s, (jnp.sqrt s).
  unfold LinearOperator.column_l2_norms in *.
  destruct (jnp.sum_axis0 (jnp.square (LinearOperator.A op))) as [ret|e];
    [|discriminate].
  cbn [bind negb] in *. injection Hs as ->.
  split; [reflexivity|]. split; [reflexivity|].
  intros j Hj Hzero. destruct Hv as [_ Hlen].
  assert (E : nth j (data s) 0%R = 0%R)
    by (rewrite (Hsum j Hj); now apply sum_sq_zeros).
  split; [exact E|]. cbn [jnp.sqrt data].
  rewrite nth_map_in_range by lia. rewrite E. apply sqrt_0.
Qed.

Lemma column_l2_norms_zero_column_witness :
  exists s r,
    LinearOperator.column_l2_norms
      (LinearOperator.__init__ A_zero_column) true = Ok s /\
    LinearOperator.column_l2_norms
      (LinearOperator.__init__ A_zero_column) false = Ok r /\
    forall j, j < 2 ->
      Forall (fun v => v = 0%R)
        (column j
           (chunks 2 2
              (data (LinearOperator.A
                       (LinearOperator.__init__ A_zero_column))))) ->
      nth j (data s) 0%R = 0%R /\ nth j (data r) 0%R = 0%R.
Proof.
  apply (column_l2_norms_zero_column 2 2
           (LinearOperator.__init__ A_zero_column)).
  split; reflexivity.
Defined.

(** ** CompositeLinearFunction: scaled curvature bounds *)

(** X13. For a matrix [A] of shape (m, n) and a [lipschitz_fun] that is
    present: when it returns a scalar [c], [column_lipschitz_constants] is the
    vector of length n whose j-th entry is the sum of the squares of column j
    times [c]; when it raises, the same error is raised. *)
Theorem column_lipschitz_constants_scaled (P : Type) (m n : nat)
    (subfun : ndarray -> P -> result ndarray) (linop : LinearOperator.t)
    (b : option ndarray) (f : P -> result ndarray) (params : P) :
  is_matrix m n (LinearOperator.A linop) ->
  (forall c, f params = Ok (scalar c) ->
     exists v,
       CompositeLinearFunction.column_lipschitz_constants
         (CompositeLinearFunction.__init__ subfun linop b (Some f)) params
       = Ok v /\
       is_vector n v /\
       forall j, j < n ->
         nth j (data v) 0%R
         = (sum_sq (column j (chunks m n (data (LinearOperator.A linop))))
            * c)%R) /\
  (forall e, f params = Raise e ->
     CompositeLinearFunction.column_lipschitz_constants
       (CompositeLinearFunction.__init__ subfun linop b (Some f)) params
     = Raise e).
Proof.
  intros HA.
  destruct (column_l2_norms_squared m n linop HA)
    as [s [Hs [[Hsh Hlen] Hsum]]].
  unfold CompositeLinearFunction.column_lipschitz_constants,
    CompositeLinearFunction.__init__.
  cbn [CompositeLinearFunction.linop CompositeLinearFunction.lipschitz_fun].
  rewrite Hs. cbn [bind]. split.
  - intros c ->. cbn [bind]. unfold jnp.multiply.
    rewrite elementwise_scalar_r
      by (unfold well_formed; rewrite Hsh, Hlen; simpl; lia).
    eexists. split; [reflexivity|]. cbn [data]. split.
    + split; [exact Hsh | cbn [data]; now rewrite length_map].
    + intros j Hj.
      rewrite (nth_map_in_range (fun v => (v * c)%R)) by lia.
      now rewrite Hsum.
  - intros e ->. reflexivity.
Qed.

Lemma column_lipschitz_constants_scaled_witness :
  (forall c, const_lipschitz 3%R = Ok (scalar c) ->
     exists v,
       CompositeLinearFunction.column_lipschitz_constants
         (CompositeLinearFunction.__init__ scaled_sum_sq op_ex None
            (Some const_lipschitz)) 3%R
       = Ok v /\
       is_vector 2 v /\
       forall j, j < 2 ->
         nth j (data v) 0%R
         = (sum_sq (column j (chunks 3 2 (data (LinearOperator.A op_ex))))
            * c)%R) /\
  (forall e, const_lipschitz 3%R = Raise e ->
     CompositeLinearFunction.column_lipschitz_constants
       (CompositeLinearFunction.__init__ scaled_sum_sq op_ex None
          (Some const_lipschitz)) 3%R
     = Raise e).
Proof.
  apply (column_lipschitz_constants_scaled R 3 2 scaled_sum_sq op_ex None
           const_lipschitz 3%R).
  split; reflexivity.
Defined.

(** ** CompositeLinearFunction: errors and the value of a call *)

(** X14. A call fails as its parts fail.  For a matrix [A] of shape (m, n)
    and a vector [x] of length p, whatever [b] and [lipschitz_fun] are: when
    p is not n the call fails with the error of [matvec], whatever [subfun]
    does; when [matvec] succeeds and [subfun] raises, the call raises the
    error of [subfun]. *)
Theorem call_errors (P : Type) (m n p : nat)
    (subfun : ndarray -> P -> result ndarray) (linop : LinearOperator.t)
    (b : option ndarray) (lipschitz_fun : option (P -> result ndarray))
    (x : ndarray) (params : P) :
  is_matrix m n (LinearOperator.A linop) -> is_vector p x ->
  (p <> n ->
   exists e,
     LinearOperator.matvec linop x = Raise e /\
     CompositeLinearFunction.__call__
       (CompositeLinearFunction.__init__ subfun linop b lipschitz_fun)
       x params = Raise e) /\
  (forall Ax e,
     LinearOperator.matvec linop x = Ok Ax ->
     subfun Ax params = Raise e ->
     CompositeLinearFunction.__call__
       (CompositeLinearFunction.__init__ subfun linop b lipschitz_fun)
       x params = Raise e).
Proof.
  intros HA Hx.
  unfold CompositeLinearFunction.__call__, CompositeLinearFunction.__init__.
  cbn [CompositeLinearFunction.b CompositeLinearFunction.linop
       CompositeLinearFunction.subfun].
  split.
  - intros Hp.
    assert (Hm : exists e, LinearOperator.matvec linop x = Raise e).
    { unfold LinearOperator.matvec, jnp.dot.
      destruct HA as [-> _]. destruct Hx as [-> _]. simpl.
      destruct (Nat.eqb_spec n p); [lia | eauto]. }
    destruct Hm as [e He]. exists e. split; [exact He|].
    rewrite He. now destruct b.
  - intros Ax e HAx He. rewrite HAx. cbn [bind].
    destruct b; rewrite He; reflexivity.
Qed.

Lemma call_errors_witness :
  (3 <> 2 ->
   exists e,
     LinearOperator.matvec op_ex (vector [1; 1; 1]%R) = Raise e /\
     CompositeLinearFunction.__call__
       (CompositeLinearFunction.__init__ failing_subfun op_ex None None)
       (vector [1; 1; 1]%R) 1%R = Raise e) /\
  (forall Ax e,
     LinearOperator.matvec op_ex (vector [1; 1; 1]%R) = Ok Ax ->
     failing_subfun Ax 1%R = Raise e ->
     CompositeLinearFunction.__call__
       (CompositeLinearFunction.__init__ failing_subfun op_ex None None)
       (vector [1; 1; 1]%R) 1%R = Raise e).
Proof.
  apply (call_errors R 3 2 3 failing_subfun op_ex None None
           (vector [1; 1; 1]%R) 1%R).
  - split; reflexivity.
  - split; reflexivity.
Defined.

(** X15. The value of a call with [b] present.  For a matrix [A] of shape
    (m, n), a vector [x] of length n, and [subfun] returning a well-formed
    array [r] on [matvec(x)]: with [b] a vector of length n the call returns
    [r] with <x, b> added to every entry; with [b] a vector of another length
    the call returns no value. *)
Theorem call_with_b (P : Type) (m n q : nat)
    (subfun : ndarray -> P -> result ndarray) (linop : LinearOperator.t)
    (b0 : ndarray) (lipschitz_fun : option (P -> result ndarray))
    (x Ax r : ndarray) (params : P) :
  is_matrix m n (LinearOperator.A linop) -> is_vector n x ->
  is_vector q b0 ->
  LinearOperator.matvec linop x = Ok Ax ->
  subfun Ax params = Ok r -> well_formed r ->
  (q = n ->
   CompositeLinearFunction.__call__
     (CompositeLinearFunction.__init__ subfun linop (Some b0) lipschitz_fun)
     x params
   = Ok (NDArray (shape r)
           (map (fun v => (v + inner (data x) (data b0))%R) (data r)))) /\
  (q <> n ->
   exists e,
     CompositeLinearFunction.__call__
       (CompositeLinearFunction.__init__ subfun linop (Some b0) lipschitz_fun)
       x params
     = Raise e).
Proof.
  intros HA [_ Hdx] [_ Hdb] HAx Hr Hwf.
  unfold CompositeLinearFunction.__call__, CompositeLinearFunction.__init__.
  cbn [CompositeLinearFunction.b CompositeLinearFunction.linop
       CompositeLinearFunction.subfun].
  rewrite HAx. cbn [bind]. rewrite Hr. cbn [bind].
  unfold jnp.vdot, jnp.array. rewrite Hdx, Hdb. split.
  - intros ->. rewrite Nat.eqb_refl. cbn [bind]. unfold jnp.add.
    now rewrite elementwise_scalar_r.
  - intros Hq. destruct (Nat.eqb_spec n q); [lia|]. cbn [bind]. eauto.
Qed.

Lemma call_with_b_witness :
  (2 = 2 ->
   CompositeLinearFunction.__call__
     (CompositeLinearFunction.__init__ scaled_sum_sq op_ex
        (Some (vector [1; 4]%R)) None)
     (vector [2; 3]%R) 1%R
   = Ok (NDArray []
           (map (fun v => (v + inner [2; 3]%R [1; 4]%R)%R)
              [(1 * sum_sq [2; 3; 5]%R)%R]))) /\
  (2 <> 2 ->
   exists e,
     CompositeLinearFunction.__call__
       (CompositeLinearFunction.__init__ scaled_sum_sq op_ex
          (Some (vector [1; 4]%R)) None)
       (vector [2; 3]%R) 1%R
     = Raise e).
Proof.
  apply (call_with_b R 3 2 2 scaled_sum_sq op_ex (vector [1; 4]%R) None
           (vector [2; 3]%R) (vector [2; 3; 5]%R)
           (scalar (1 * sum_sq [2; 3; 5]%R)) 1%R).
  - split; reflexivity.
  - split; reflexivity.
  - split; reflexivity.
  - eval_array.
  - reflexivity.
  - reflexivity.
Defined.

(** ** LinearOperator: the operator of the transposed matrix *)

Lemma map_nth_seq_rows (rows : list (list R)) :
  map (fun i => nth i rows []) (seq 0 (length rows)) = rows.
Proof.
  induction rows as [|r rows IH]; simpl; [reflexivity|].
  f_equal. rewrite <- seq_shift, map_map. exact IH.
Qed.

Lemma columns_columns (n : nat) (rows : list (list R)) :
  Forall (fun r => length r = n) rows ->
  columns (length rows) (columns n rows) = rows.
Proof.
  intros HF. rewrite <- (map_nth_seq_rows rows) at 3.
  unfold columns at 1. apply map_ext_in. intros i Hi.
  apply in_seq in Hi.
  assert (Hrow : length (nth i rows []) = n).
  { rewrite Forall_forall in HF. apply HF, nth_In. lia. }
  rewrite <- (map_nth_seq (nth i rows [])). rewrite Hrow.
  unfold column at 1, columns. rewrite map_map.
  apply map_ext. intros j. apply nth_column. lia.
Qed.

Lemma T_involutive (m n : nat) (a : ndarray) :
  is_matrix m n a -> jnp.T (jnp.T a) = a.
Proof.
  intros Ha. pose proof Ha as [Hs Hd].
  rewrite (T_matrix n m _ (is_matrix_T m n a Ha)).
  rewrite (T_matrix m n a Ha). cbn [data].
  pose proof (columns_lengths n (chunks m n (data a))) as HF.
  rewrite length_chunks in HF.
  set (rows := chunks m n (data a)) in *.
  replace (chunks n m (concat (columns n rows)))
    with (chunks (length (columns n rows)) m (concat (columns n rows)))
    by now rewrite length_columns.
  rewrite (chunks_concat m _ HF).
  replace (columns m (columns n rows))
    with (columns (length rows) (columns n rows))
    by (unfold rows; now rewrite length_chunks).
  rewrite (columns_columns n) by now apply chunks_lengths.
  unfold rows. rewrite (concat_chunks m n _ Hd).
  destruct a as [sh d]. simpl in *. now subst sh.
Qed.

(** X17. The operator built from the transposed matrix swaps the two
    products.  For a matrix [A] of shape (m, n): [LinearOperator(A.T)] has
    shape (n, m), its [matvec] is the [rmatvec] of [LinearOperator(A)], and
    its [rmatvec] is the [matvec] of [LinearOperator(A)], on every
    argument. *)
Theorem transposed_operator (m n : nat) (A0 x : ndarray) :
  is_matrix m n A0 ->
  LinearOperator.shape (LinearOperator.__init__ (jnp.T A0)) = [n; m] /\
  LinearOperator.matvec (LinearOperator.__init__ (jnp.T A0)) x
  = LinearOperator.rmatvec (LinearOperator.__init__ A0) x /\
  LinearOperator.rmatvec (LinearOperator.__init__ (jnp.T A0)) x
  = LinearOperator.matvec (LinearOperator.__init__ A0) x.
Proof.
  intros HA. split; [apply (is_matrix_T m n A0 HA)|].
  split; [reflexivity|].
  unfold LinearOperator.rmatvec, LinearOperator.matvec,
    LinearOperator.__init__, jnp.array.
  cbn [LinearOperator.A]. now rewrite (T_involutive m n A0 HA).
Qed.

Lemma transposed_operator_witness :
  LinearOperator.shape (LinearOperator.__init__ (jnp.T A_ex)) = [2; 3] /\
  LinearOperator.matvec (LinearOperator.__init__ (jnp.T A_ex))
    (vector [1; 1; 1]%R)
  = LinearOperator.rmatvec (LinearOperator.__init__ A_ex)
      (vector [1; 1; 1]%R) /\
  LinearOperator.rmatvec (LinearOperator.__init__ (jnp.T A_ex))
    (vector [1; 1; 1]%R)
  = LinearOperator.matvec (LinearOperator.__init__ A_ex)
      (vector [1; 1; 1]%R).
Proof.
  apply (transposed_operator 3 2 A_ex (vector [1; 1; 1]%R)).
  split; reflexivity.
Defined.

(** ** LinearOperator: the update does not validate its index *)

(** X18. [update_matvec] does not check its index against the axis.  For a
    matrix [A] of shape (m, n) with n > 0, a vector [Ax] of length m and a
    scalar [delta]: for an index that fits 32 bits the update succeeds; an
    index in [-n, 0) acts as [idx + n]; an index beyond the last column that
    fits 32 bits is not rejected but acts as the last column, [n - 1]; an
    index beyond the last column that does not fit 32 bits fails with
    [OverflowError]. *)
Theorem update_matvec_any_index (m n : nat) (op : LinearOperator.t)
    (Ax : ndarray) (delta : R) (idx : Z) :
  is_matrix m n (LinearOperator.A op) -> 0 < n -> is_vector m Ax ->
  ((-2147483648 <= idx < 2147483648)%Z ->
   exists r, LinearOperator.update_matvec op Ax (scalar delta) idx = Ok r /\
             is_vector m r) /\
  ((- Z.of_nat n <= idx < 0)%Z ->
   LinearOperator.update_matvec op Ax (scalar delta) idx
   = LinearOperator.update_matvec op Ax (scalar delta) (idx + Z.of_nat n)) /\
  ((Z.of_nat n <= idx < 2147483648)%Z ->
   LinearOperator.update_matvec op Ax (scalar delta) idx
   = LinearOperator.update_matvec op Ax (scalar delta) (Z.of_nat n - 1)) /\
  ((Z.of_nat n <= idx)%Z -> (2147483648 <= idx)%Z ->
   LinearOperator.update_matvec op Ax (scalar delta) idx
   = Raise OverflowError).
Proof.
  intros HA Hn HAx. split; [|split; [|split]].
  - intros Hi.
    rewrite (update_matvec_vector_any m n op Ax delta _ HA Hn HAx
               (readable_int32 idx n Hi)).
    eexists. split; [reflexivity|].
    apply is_vector_updated; [apply HAx|].
    now rewrite length_column, length_chunks.
  - intros Hi.
    rewrite !(update_matvec_vector_any m n op Ax delta _ HA Hn HAx)
      by (apply readable_on_axis; lia).
    rewrite (clip_index_negative idx n Hi).
    rewrite (clip_index_in_range (idx + Z.of_nat n) n) by lia. reflexivity.
  - intros Hi.
    rewrite (update_matvec_vector_any m n op Ax delta idx HA Hn HAx)
      by (apply readable_int32; lia).
    rewrite (update_matvec_vector_any m n op Ax delta _ HA Hn HAx)
      by (apply readable_on_axis; lia).
    rewrite (clip_index_beyond idx n Hn) by lia.
    rewrite (clip_index_in_range (Z.of_nat n - 1) n) by lia.
    do 5 f_equal. lia.
  - intros Hi Hbig.
    unfold LinearOperator.update_matvec, ndim, jnp.getitem_col.
    destruct HAx as [-> _]. destruct HA as [-> _]. cbn [length Nat.eqb].
    now rewrite unreadable_beyond.
Qed.

(** At a negative index, at an index beyond the last column and at an index
    beyond 32 bits. *)
Lemma update_matvec_any_index_witness :
  LinearOperator.update_matvec op_ex (vector [2; 3; 5]%R) (scalar 2) (-1)
  = LinearOperator.update_matvec op_ex (vector [2; 3; 5]%R) (scalar 2)
      (-1 + Z.of_nat 2) /\
  LinearOperator.update_matvec op_ex (vector [2; 3; 5]%R) (scalar 2) 6
  = LinearOperator.update_matvec op_ex (vector [2; 3; 5]%R) (scalar 2)
      (Z.of_nat 2 - 1) /\
  LinearOperator.update_matvec op_ex (vector [2; 3; 5]%R) (scalar 2)
    1099511627776
  = Raise OverflowError.
Proof.
  assert (HA : is_matrix 3 2 (LinearOperator.A op_ex)) by (split; reflexivity).
  assert (HAx : is_vector 3 (vector [2; 3; 5]%R)) by (split; reflexivity).
  assert (Hn : 0 < 2) by lia.
  split; [|split].
  - apply (proj1 (proj2 (update_matvec_any_index 3 2 op_ex
                           (vector [2; 3; 5]%R) 2 (-1) HA Hn HAx))).
    simpl; lia.
  - apply (proj1 (proj2 (proj2 (update_matvec_any_index 3 2 op_ex
                                  (vector [2; 3; 5]%R) 2 6 HA Hn HAx)))).
    simpl; lia.
  - apply (proj2 (proj2 (proj2 (update_matvec_any_index 3 2 op_ex
                                  (vector [2; 3; 5]%R) 2 1099511627776
                                  HA Hn HAx)))).
    + simpl; lia.
    + lia.
Defined.
